(** * A model of [server.js]: the Automerge full-state relay

    The server keeps one Automerge document, seeds it from [manifest.json],
    serves [client.html] over HTTP and speaks a small JSON protocol over
    WebSocket ([hello], [full], [persisted], [ping], [debug_echo]).

    Conventions of the embedding.
    - A JavaScript string is a [string]; a character stands for one UTF-16
      code unit, so [String.length] is the script's [.length].  Texts are
      thereby those whose code units are below 256.
    - A value that went through [JSON.parse], or that is handed to
      [JSON.stringify], is a [JSON]; [undefined] is [None : option JSON].
    - The JavaScript runtime ([JSON.parse], [JSON.stringify], UTF-8 decoding)
      and the Automerge library are interfaces ([JSRuntime], [AutomergeLib]):
      every theorem holds for all their implementations.  Small concrete
      implementations ([MiniJS], [PlainDocs]) are given to run the model.
    - Handlers run in a monad [M] that threads the process state ([World]),
      appends to a trace of observable events and propagates exceptions the
      way [try]/[catch] sees them.
    - A log line is one [LogEntry]; what is kept of its text is whether the
      template literal that builds it can be evaluated ([convertible]): the
      literals interpolate [qText] values, and a value without a string
      conversion makes the literal raise. *)

From Stdlib Require Import String Ascii List ZArith Bool Arith Lia DecimalString Sorted.
From Stdlib.Strings Require Import Byte.
Import ListNotations.
Open Scope string_scope.
Open Scope list_scope.

Set Implicit Arguments.
Set Warnings "-register-all".

(** ** JSON values and property access *)

Inductive JSON : Type :=
| JNull
| JBool (b : bool)
| JNum (n : Z)
| JStr (s : string)
| JArr (elems : list JSON)
| JObj (fields : list (string * JSON)).

(** [o[k]] on the fields of an object. *)
Fixpoint lookup (k : string) (fields : list (string * JSON)) : option JSON :=
  match fields with
  | [] => None
  | (k', v) :: rest => if String.eqb k k' then Some v else lookup k rest
  end.

(** [v.name] for a value that is neither [null] nor [undefined], for the
    names the script reads ([type], [payload], [pages], [questionRows],
    [elements], [questionText]): none of them lives on a prototype, so only
    an object's own fields answer. *)
Definition get_field (v : JSON) (name : string) : option JSON :=
  match v with
  | JObj fields => lookup name fields
  | JArr elems =>
      if String.eqb name "length" then Some (JNum (Z.of_nat (List.length elems))) else None
  | JStr s =>
      if String.eqb name "length" then Some (JNum (Z.of_nat (String.length s))) else None
  | _ => None
  end.

(** [v[0]] for a value that is neither [null] nor [undefined]. *)
Definition get_index0 (v : JSON) : option JSON :=
  match v with
  | JArr elems => nth_error elems 0
  | JObj fields => lookup "0" fields
  | JStr s => match s with
              | EmptyString => None
              | String c _ => Some (JStr (String c EmptyString))
              end
  | _ => None
  end.

(** Optional chaining: [v?.name] and [v?.[0]] short-circuit to [undefined]
    on [null] and [undefined]. *)
Definition opt_field (v : option JSON) (name : string) : option JSON :=
  match v with
  | None | Some JNull => None
  | Some x => get_field x name
  end.

Definition opt_index0 (v : option JSON) : option JSON :=
  match v with
  | None | Some JNull => None
  | Some x => get_index0 x
  end.

(** [a ?? b] *)
Definition nullish (v : option JSON) (dflt : JSON) : JSON :=
  match v with
  | None | Some JNull => dflt
  | Some x => x
  end.

(** [d?.pages?.[0]?.questionRows?.[0]?.elements?.[0]?.questionText] *)
Definition questionText_path (d : option JSON) : option JSON :=
  opt_field
    (opt_index0 (opt_field
       (opt_index0 (opt_field
          (opt_index0 (opt_field d "pages"))
          "questionRows"))
       "elements"))
    "questionText".

(** The body of [qText] on the plain view of a document.  Property access on
    plain data does not throw, so its ["(error)"] arm is never taken. *)
Definition qText_of (d : option JSON) : JSON :=
  nullish (questionText_path d) (JStr "(missing)").

(** [msg || {}]: the falsy values are [null], [false], [0] and [""]. *)
Definition or_empty_object (msg : JSON) : JSON :=
  match msg with
  | JNull | JBool false | JNum 0%Z | JStr EmptyString => JObj []
  | _ => msg
  end.

(** [const { type, payload } = v]: reading properties off [null] raises a
    TypeError ([None]); every other value answers, with [undefined] for what
    it does not have. *)
Definition destructure (v : JSON) : option (option JSON * option JSON) :=
  match v with
  | JNull => None
  | _ => Some (get_field v "type", get_field v "payload")
  end.

(** Whether [`${v}`] yields a string.  An object converts through
    [Object.prototype.toString] unless it has a field [toString] of its own:
    no JSON value is callable, [valueOf] gives the object back, and the
    conversion raises a TypeError.  An array joins the conversions of its
    elements. *)
Fixpoint convertible (v : JSON) : bool :=
  match v with
  | JArr elems => forallb convertible elems
  | JObj fields =>
      match lookup "toString" fields with
      | Some _ => false
      | None => true
      end
  | _ => true
  end.

(** The seed used when [manifest.json] is missing or unusable. *)
Definition emptyShape : JSON :=
  JObj [ ("pages", JArr []); ("tiles", JArr []); ("merges", JArr []);
         ("actions", JArr []); ("databases", JArr []); ("connections", JArr []);
         ("styles", JObj [("theme", JObj [])]) ].

(** ** The two external interfaces *)

(** What the script uses of the JavaScript runtime. [None] is a thrown
    [SyntaxError]. *)
Class JSRuntime : Type := {
  JSON_parse : string -> option JSON;
  (** [JSON.stringify(v, null, 2)] *)
  JSON_stringify2 : JSON -> string;
  (** [buf.toString("utf8")] *)
  Buffer_toString : list byte -> string
}.

(** What the script uses of Automerge 0.14. [None] is a thrown exception;
    [save] and [merge] return normally on documents.  [am_view] is the plain
    data the document shows to property access and to [JSON.stringify]. *)
Class AutomergeLib : Type := {
  Doc : Type;
  am_from : JSON -> option Doc;
  am_save : Doc -> string;
  am_load : option JSON -> option Doc;
  am_merge : Doc -> Doc -> Doc;
  am_view : Doc -> JSON;
  (** [Automerge.from] accepts the literal skeleton. *)
  am_from_emptyShape : am_from emptyShape <> None
}.

(** ** Process state, observable events and the handler monad *)

(** [ws.readyState] *)
Inductive ReadyState : Type := CONNECTING | OPEN | CLOSING | CLOSED.

(** A WebSocket of [wss.clients], with the [id] the connection handler
    closed over.  [send_throws] tells whether [ws.send] throws on this
    socket; the script observes it only through [try]/[catch].  A listener
    runs to completion, so the flag and [readyState] are those at the time
    the listener starts. *)
Record Conn : Type := mkConn {
  conn_id : nat;
  readyState : ReadyState;
  send_throws : bool
}.

Definition is_open (c : Conn) : bool :=
  match readyState c with OPEN => true | _ => false end.

(** What the next [fs.writeFileSync] does: succeed, or throw and leave the
    file as [residue] ([None]: no file). *)
Inductive WriteOutcome : Type :=
| WriteOk
| WriteFails (residue : option string).

Inductive LogEntry : Type :=
| LLoadFound
| LLoaded (q : JSON)
| LLoadParseError
| LLoadNoFile
| LPersistSaved (q : JSON)
| LPersistWriteError
| LConnected (id total : nat)
| LInitialSent (id : nat) (q : JSON)
| LInitialFailed (id : nat)
| LRecv (id len : nat) (isBuf : bool)
| LDebugEchoFailed
| LInvalidJSON (id : nat)
| LHelloSent (id : nat) (q : JSON)
| LHelloFailed (id : nat)
| LIgnoring (id : nat) (type : option JSON)
| LLoadStringFailed (id : nat)
| LMerge (id : nat) (incoming before after : JSON)
| LAckOk (id : nat)
| LAckFailed (id : nat)
| LBroadcastSent (sent : nat) (q : JSON)
| LBroadcastFailed.

(** [ESend id m ok]: [send(JSON.stringify(m), {binary: false})] was called
    on the socket of client [id] and returned normally iff [ok].
    [EWrite s ok]: [fs.writeFileSync(SNAPSHOT_JSON, s)] was called and
    returned normally iff [ok]. *)
Inductive Event : Type :=
| ELog (l : LogEntry)
| ESend (to : nat) (m : JSON) (ok : bool)
| EWrite (content : string) (ok : bool).

(** Completion of a statement list: normal, or an exception in flight. *)
Inductive Completion (A : Type) : Type :=
| Normal (a : A)
| Throw.
Arguments Throw {A}.

Section Server.

Context {RT : JSRuntime} {AM : AutomergeLib}.

(** [doc], the content of [manifest.json] ([None]: no such file), the
    outcomes of the coming writes (none listed: the write succeeds),
    [wss.clients] in insertion order and [nextClientId]. *)
Record World : Type := mkWorld {
  doc : Doc;
  snapshot : option string;
  disk : list WriteOutcome;
  clients : list Conn;
  nextClientId : nat
}.

Definition M (A : Type) : Type := World -> World * list Event * Completion A.

Definition ret {A} (a : A) : M A := fun w => (w, [], Normal a).

Definition bind {A B} (m : M A) (k : A -> M B) : M B :=
  fun w =>
    match m w with
    | (w1, t1, Normal a) =>
        match k a w1 with
        | (w2, t2, r) => (w2, t1 ++ t2, r)
        end
    | (w1, t1, Throw) => (w1, t1, Throw)
    end.

(** [try { body } catch (e) { handler }] *)
Definition try_catch {A} (body handler : M A) : M A :=
  fun w =>
    match body w with
    | (w1, t1, Normal a) => (w1, t1, Normal a)
    | (w1, t1, Throw) =>
        match handler w1 with
        | (w2, t2, r) => (w2, t1 ++ t2, r)
        end
    end.

Definition emit (e : Event) : M unit := fun w => (w, [e], Normal tt).
Definition log (l : LogEntry) : M unit := emit (ELog l).

(** [throw e] *)
Definition throw {A} : M A := fun w => (w, [], Throw).

(** [console.log] of a template literal that interpolates the values [vs]:
    the literal is evaluated first, and raises when one of them has no
    string conversion. *)
Definition log_template (vs : list JSON) (l : LogEntry) : M unit :=
  if forallb convertible vs then log l else throw.
Definition get_doc : M Doc := fun w => (w, [], Normal (doc w)).
Definition set_doc (d : Doc) : M unit :=
  fun w => (mkWorld d (snapshot w) (disk w) (clients w) (nextClientId w), [], Normal tt).
Definition get_clients : M (list Conn) := fun w => (w, [], Normal (clients w)).

End Server.

Declare Scope js_scope.
Delimit Scope js_scope with js.
Notation "x <- m ;; k" := (bind m (fun x => k))
  (at level 61, m at next level, right associativity) : js_scope.
Notation "m ;; k" := (bind m (fun _ => k))
  (at level 61, right associativity) : js_scope.
Notation "'try' b 'catch' h" := (try_catch b h)
  (at level 60, b at level 61, h at level 61) : js_scope.

Open Scope js_scope.

(** ** The script *)

Section Script.

Context {RT : JSRuntime} {AM : AutomergeLib}.

(** [qText(d)] on a document. *)
Definition qText (d : Doc) : JSON := qText_of (Some (am_view d)).

(** [fs.writeFileSync(SNAPSHOT_JSON, content)] *)
Definition fs_writeFileSync (content : string) : M unit :=
  fun w =>
    match disk w with
    | [] =>
        (mkWorld (doc w) (Some content) [] (clients w) (nextClientId w),
         [EWrite content true], Normal tt)
    | WriteOk :: rest =>
        (mkWorld (doc w) (Some content) rest (clients w) (nextClientId w),
         [EWrite content true], Normal tt)
    | WriteFails residue :: rest =>
        (mkWorld (doc w) residue rest (clients w) (nextClientId w),
         [EWrite content false], Throw)
    end.

Definition persistJson : M unit :=
  try (d <- get_doc ;;
       fs_writeFileSync (JSON_stringify2 (am_view d)) ;;
       log_template [qText d] (LPersistSaved (qText d)))
  catch (log LPersistWriteError).

(** The state right after [doc] is first assigned: nobody connected, the
    first client will be number 1. *)
Definition boot (d : Doc) (snap : option string) (dk : list WriteOutcome) : World :=
  mkWorld d snap dk [] 1.

(** [doc = Automerge.from({pages: [], ...}); persistJson();], after the log
    lines [pre]. [None]: an exception left [loadInitial]. *)
Definition seed_empty (pre : list Event) (snap : option string)
    (dk : list WriteOutcome) : list Event * option World :=
  match am_from emptyShape with
  | Some d =>
      match persistJson (boot d snap dk) with
      | (w, t, Normal _) => (pre ++ t, Some w)
      | (_, t, Throw) => (pre ++ t, None)
      end
  | None => (pre, None)
  end.

(** [loadInitial()], run on the content of [manifest.json] at startup.
    The [try] holds the parse, [Automerge.from] and the [loaded] log line,
    whose template literal interpolates [qText(doc)]: when any of the three
    raises, the [catch] seeds the skeleton. *)
Definition loadInitial (snap : option string) (dk : list WriteOutcome)
    : list Event * option World :=
  match snap with
  | Some text =>
      match match JSON_parse text with
            | Some seed => am_from seed
            | None => None
            end
      with
      | Some d =>
          if convertible (qText d)
          then ([ELog LLoadFound; ELog (LLoaded (qText d))], Some (boot d snap dk))
          else seed_empty [ELog LLoadFound; ELog LLoadParseError] snap dk
      | None => seed_empty [ELog LLoadFound; ELog LLoadParseError] snap dk
      end
  | None => seed_empty [ELog LLoadNoFile] snap dk
  end.

(** *** HTTP *)

Record Request : Type := mkRequest {
  req_method : string;
  req_url : option string
}.

Record Response : Type := mkResponse {
  status : nat;
  headers : list (string * JSON);
  body : string
}.

(** [s.split("?")[0]] *)
Fixpoint before_qmark (s : string) : string :=
  match s with
  | EmptyString => EmptyString
  | String c rest => if Ascii.eqb c "?"%char then EmptyString else String c (before_qmark rest)
  end.

(** [(req.url || "/").split("?")[0]] *)
Definition pathname (url : option string) : string :=
  before_qmark match url with
               | None | Some EmptyString => "/"
               | Some u => u
               end.

Definition noCacheHeaders : list (string * JSON) :=
  [ ("Content-Type", JStr "text/html; charset=utf-8");
    ("Cache-Control", JStr "no-store, no-cache, must-revalidate, proxy-revalidate");
    ("Pragma", JStr "no-cache");
    ("Expires", JStr "0") ].

(** [Buffer.byteLength(s, "utf8")] for code units below 256. *)
Fixpoint utf8_byteLength (s : string) : nat :=
  match s with
  | EmptyString => 0
  | String c rest => (if Nat.ltb (nat_of_ascii c) 128 then 1 else 2) + utf8_byteLength rest
  end.

Definition placeholderPage : string :=
  "Place client.html next to server.js (server is running).".

(** The request listener, given the content of [client.html] ([None]: no
    such file).  Its [console.log] line is left out. *)
Definition httpHandler (client_html : option string) (req : Request) : Response :=
  let p := pathname (req_url req) in
  if String.eqb p "/" || String.eqb p "/client.html" then
    match client_html with
    | None => mkResponse 200 noCacheHeaders placeholderPage
    | Some html =>
        mkResponse 200
          (noCacheHeaders ++ [("Content-Length", JNum (Z.of_nat (utf8_byteLength html)))])
          html
    end
  else mkResponse 404 [("Cache-Control", JStr "no-store")] "Not found".

(** *** WebSocket *)

Definition fullMessage (serial : string) : JSON :=
  JObj [("type", JStr "full"); ("payload", JStr serial)].

Definition pingMessage (t : Z) : JSON :=
  JObj [("type", JStr "ping"); ("t", JNum t)].

Definition debugEcho (len : nat) : JSON :=
  JObj [("type", JStr "debug_echo"); ("bytes", JNum (Z.of_nat len))].

(** The acknowledgment built at Step 4; [iso] is [new Date().toISOString()]. *)
Definition persistedAck (iso : string) (q : JSON) : JSON :=
  JObj [("type", JStr "persisted");
        ("payload", JObj [("at", JStr iso); ("questionText", q)])].

(** [c.send(JSON.stringify(m), { binary: false })] *)
Definition ws_send (c : Conn) (m : JSON) : M unit :=
  fun w =>
    if send_throws c
    then (w, [ESend (conn_id c) m false], Throw)
    else (w, [ESend (conn_id c) m true], Normal tt).

(** The ["connection"] listener.  The socket is already in [wss.clients]
    when it runs; the listener returns the socket it closed over. *)
Definition onConnection (st : ReadyState) (throws : bool) : M Conn :=
  fun w =>
    let id := nextClientId w in
    let ws := mkConn id st throws in
    let w1 := mkWorld (doc w) (snapshot w) (disk w) (clients w ++ [ws]) (S id) in
    (log (LConnected id (List.length (clients w1))) ;;
     (try (d <- get_doc ;;
           ws_send ws (fullMessage (am_save d)) ;;
           log_template [qText d] (LInitialSent id (qText d)))
      catch (log (LInitialFailed id))) ;;
     ret ws) w1.

(** One tick of the 2000 ms interval; [t] is [Date.now()]. *)
Definition onPingTick (ws : Conn) (t : Z) : M unit :=
  if is_open ws then ws_send ws (pingMessage t) else ret tt.

(** The frame handed to the ["message"] listener. *)
Inductive Data : Type :=
| DBuffer (bytes : list byte)
| DString (s : string).

Definition isBuffer (data : Data) : bool :=
  match data with DBuffer _ => true | DString _ => false end.

(** [isBuf ? data.toString("utf8") : String(data)] *)
Definition text_of (data : Data) : string :=
  match data with
  | DBuffer bytes => Buffer_toString bytes
  | DString s => s
  end.

(** [type === name] *)
Definition is_str (v : option JSON) (name : string) : bool :=
  match v with
  | Some (JStr s) => String.eqb s name
  | _ => false
  end.

(** The body of [wss.clients.forEach] with its counter [sent]; an exception
    of [c.send] leaves the loop. *)
Fixpoint forEach_send (outMsg : JSON) (cs : list Conn) (sent : nat) : M nat :=
  match cs with
  | [] => ret sent
  | c :: rest =>
      if is_open c
      then (ws_send c outMsg ;; forEach_send outMsg rest (S sent))
      else forEach_send outMsg rest sent
  end.

(** Step 5: broadcast FULL to all clients. *)
Definition broadcast : M unit :=
  try (d <- get_doc ;;
       cs <- get_clients ;;
       sent <- forEach_send (fullMessage (am_save d)) cs 0 ;;
       log_template [qText d] (LBroadcastSent sent (qText d)))
  catch (log LBroadcastFailed).

(** Step 4: persisted ACK to sender. *)
Definition sendAck (ws : Conn) (iso : string) : M unit :=
  try (d <- get_doc ;;
       ws_send ws (persistedAck iso (qText d)) ;;
       log (LAckOk (conn_id ws)))
  catch (log (LAckFailed (conn_id ws))).

(** The reply to ["hello"]. *)
Definition replyHello (ws : Conn) : M unit :=
  try (d <- get_doc ;;
       ws_send ws (fullMessage (am_save d)) ;;
       log_template [qText d] (LHelloSent (conn_id ws) (qText d)))
  catch (log (LHelloFailed (conn_id ws))).

(** The ["message"] listener of the socket [ws].  The [merge] log line is
    a template literal outside any [try]: when it raises, the exception
    leaves the listener, after [doc] was replaced. *)
Definition onMessage (ws : Conn) (data : Data) (iso : string) : M unit :=
  let id := conn_id ws in
  let text := text_of data in
  log (LRecv id (String.length text) (isBuffer data)) ;;
  (try (ws_send ws (debugEcho (String.length text))) catch (log LDebugEchoFailed)) ;;
  match JSON_parse text with
  | None => log (LInvalidJSON id)
  | Some msg =>
      match destructure (or_empty_object msg) with
      | None => throw
      | Some (type, payload) =>
          if is_str type "hello" then replyHello ws
          else if negb (is_str type "full") then log (LIgnoring id type)
          else
            match am_load payload with
            | None => log (LLoadStringFailed id)
            | Some incomingDoc =>
                d <- get_doc ;;
                set_doc (am_merge d incomingDoc) ;;
                d' <- get_doc ;;
                log_template [qText incomingDoc; qText d; qText d']
                  (LMerge id (qText incomingDoc) (qText d) (qText d')) ;;
                persistJson ;;
                sendAck ws iso ;;
                broadcast
            end
      end
  end.

End Script.

(** ** A small runtime to run the model: [MiniJS]

    [JSON.parse] and [JSON.stringify(v, null, 2)] for the JSON texts whose
    numbers are integers and whose strings use no [\u] escape; other texts
    are rejected. *)

Module Mini.

Definition is_ws (c : ascii) : bool :=
  match nat_of_ascii c with
  | 9 | 10 | 13 | 32 => true
  | _ => false
  end.

Fixpoint skip_ws (s : string) : string :=
  match s with
  | String c rest => if is_ws c then skip_ws rest else s
  | EmptyString => s
  end.

Definition is_digit (c : ascii) : bool :=
  Nat.leb 48 (nat_of_ascii c) && Nat.leb (nat_of_ascii c) 57.

Definition unescape (c : ascii) : option ascii :=
  match nat_of_ascii c with
  | 34 => Some (ascii_of_nat 34)
  | 92 => Some (ascii_of_nat 92)
  | 47 => Some (ascii_of_nat 47)
  | 98 => Some (ascii_of_nat 8)
  | 102 => Some (ascii_of_nat 12)
  | 110 => Some (ascii_of_nat 10)
  | 114 => Some (ascii_of_nat 13)
  | 116 => Some (ascii_of_nat 9)
  | _ => None
  end.

(** The characters of a string literal, after its opening quote. *)
Fixpoint parse_chars (s : string) : option (string * string) :=
  match s with
  | EmptyString => None
  | String c rest =>
      if Nat.eqb (nat_of_ascii c) 34 then Some (EmptyString, rest)
      else if Nat.eqb (nat_of_ascii c) 92 then
        match rest with
        | String e rest' =>
            match unescape e, parse_chars rest' with
            | Some ch, Some (str, r) => Some (String ch str, r)
            | _, _ => None
            end
        | EmptyString => None
        end
      else if Nat.ltb (nat_of_ascii c) 32 then None
      else
        match parse_chars rest with
        | Some (str, r) => Some (String c str, r)
        | None => None
        end
  end.

Fixpoint take_digits (s : string) : list nat * string :=
  match s with
  | String c rest =>
      if is_digit c
      then let '(ds, r) := take_digits rest in (nat_of_ascii c - 48 :: ds, r)
      else ([], s)
  | EmptyString => ([], s)
  end.

Definition digits_value (ds : list nat) : Z :=
  fold_left (fun acc d => (10 * acc + Z.of_nat d)%Z) ds 0%Z.

(** An integer literal: no leading zero, no fraction, no exponent. *)
Definition parse_number (s : string) : option (JSON * string) :=
  let '(neg, s1) :=
    match s with
    | String c rest => if Nat.eqb (nat_of_ascii c) 45 then (true, rest) else (false, s)
    | EmptyString => (false, s)
    end in
  match take_digits s1 with
  | ([], _) => None
  | (0 :: _ :: _, _) => None
  | (ds, r) =>
      let v := digits_value ds in
      let ok := match r with
                | String c _ =>
                    negb (Nat.eqb (nat_of_ascii c) 46 || Nat.eqb (nat_of_ascii c) 101
                          || Nat.eqb (nat_of_ascii c) 69)
                | EmptyString => true
                end in
      if ok then Some (JNum (if neg then Z.opp v else v), r) else None
  end.

Fixpoint expect (word s : string) : option string :=
  match word, s with
  | EmptyString, _ => Some s
  | String a word', String b s' => if Ascii.eqb a b then expect word' s' else None
  | String _ _, EmptyString => None
  end.

Fixpoint remove_key (k : string) (fields : list (string * JSON)) : list (string * JSON) :=
  match fields with
  | [] => []
  | (k', v) :: rest =>
      if String.eqb k k' then remove_key k rest else (k', v) :: remove_key k rest
  end.

(** A member in front of the members parsed after it: a later duplicate
    key gives the value, the first occurrence gives the position. *)
Definition add_member (k : string) (v : JSON) (later : list (string * JSON))
    : list (string * JSON) :=
  match lookup k later with
  | Some v' => (k, v') :: remove_key k later
  | None => (k, v) :: later
  end.

Fixpoint parse_value (fuel : nat) (s : string) : option (JSON * string) :=
  match fuel with
  | O => None
  | S fuel' =>
      match skip_ws s with
      | EmptyString => None
      | String c rest =>
          match nat_of_ascii c with
          | 110 => option_map (pair JNull) (expect "ull" rest)
          | 116 => option_map (pair (JBool true)) (expect "rue" rest)
          | 102 => option_map (pair (JBool false)) (expect "alse" rest)
          | 34 => match parse_chars rest with
                  | Some (str, r) => Some (JStr str, r)
                  | None => None
                  end
          | 91 => match skip_ws rest with
                  | String c' r =>
                      if Nat.eqb (nat_of_ascii c') 93 then Some (JArr [], r)
                      else option_map (fun p => (JArr (fst p), snd p)) (parse_elems fuel' rest)
                  | EmptyString => None
                  end
          | 123 => match skip_ws rest with
                   | String c' r =>
                       if Nat.eqb (nat_of_ascii c') 125 then Some (JObj [], r)
                       else option_map (fun p => (JObj (fst p), snd p)) (parse_members fuel' rest)
                   | EmptyString => None
                   end
          | _ => parse_number (String c rest)
          end
      end
  end

with parse_elems (fuel : nat) (s : string) : option (list JSON * string) :=
  match fuel with
  | O => None
  | S fuel' =>
      match parse_value fuel' s with
      | Some (v, r) =>
          match skip_ws r with
          | String c r' =>
              if Nat.eqb (nat_of_ascii c) 44 then
                option_map (fun p => (v :: fst p, snd p)) (parse_elems fuel' r')
              else if Nat.eqb (nat_of_ascii c) 93 then Some ([v], r')
              else None
          | EmptyString => None
          end
      | None => None
      end
  end

with parse_members (fuel : nat) (s : string) : option (list (string * JSON) * string) :=
  match fuel with
  | O => None
  | S fuel' =>
      match skip_ws s with
      | String q r0 =>
          if Nat.eqb (nat_of_ascii q) 34 then
            match parse_chars r0 with
            | Some (k, r1) =>
                match skip_ws r1 with
                | String colon r2 =>
                    if Nat.eqb (nat_of_ascii colon) 58 then
                      match parse_value fuel' r2 with
                      | Some (v, r3) =>
                          match skip_ws r3 with
                          | String c r4 =>
                              if Nat.eqb (nat_of_ascii c) 44 then
                                option_map (fun p => (add_member k v (fst p), snd p))
                                           (parse_members fuel' r4)
                              else if Nat.eqb (nat_of_ascii c) 125 then Some ([(k, v)], r4)
                              else None
                          | EmptyString => None
                          end
                      | None => None
                      end
                    else None
                | EmptyString => None
                end
            | None => None
            end
          else None
      | EmptyString => None
      end
  end.

Definition parse (s : string) : option JSON :=
  match parse_value (S (String.length s)) s with
  | Some (v, rest) =>
      match skip_ws rest with
      | EmptyString => Some v
      | String _ _ => None
      end
  | None => None
  end.

Definition hex_digit (n : nat) : ascii :=
  ascii_of_nat (if Nat.ltb n 10 then 48 + n else 87 + n).

Definition escape (c : ascii) : string :=
  let n := nat_of_ascii c in
  match n with
  | 34 => String "\" (String (ascii_of_nat 34) "")
  | 92 => "\\"
  | 8 => "\b"
  | 12 => "\f"
  | 10 => "\n"
  | 13 => "\r"
  | 9 => "\t"
  | _ =>
      if Nat.ltb n 32
      then ("\u00" ++ String (hex_digit (n / 16)) (String (hex_digit (n mod 16)) ""))%string
      else String c ""
  end.

Fixpoint quote_chars (s : string) : string :=
  match s with
  | EmptyString => String (ascii_of_nat 34) ""
  | String c rest => (escape c ++ quote_chars rest)%string
  end.

Definition quote (s : string) : string := String (ascii_of_nat 34) (quote_chars s).

Fixpoint spaces (n : nat) : string :=
  match n with
  | O => ""
  | S n' => String " " (spaces n')
  end.

Definition newline : string := String (ascii_of_nat 10) "".

Definition string_of_Z (n : Z) : string := NilZero.string_of_int (Z.to_int n).

Fixpoint stringify2 (indent : nat) (v : JSON) : string :=
  match v with
  | JNull => "null"
  | JBool true => "true"
  | JBool false => "false"
  | JNum n => string_of_Z n
  | JStr s => quote s
  | JArr [] => "[]"
  | JArr elems =>
      ("[" ++ newline
       ++ String.concat ("," ++ newline)
            (map (fun x => spaces (indent + 2) ++ stringify2 (indent + 2) x) elems)
       ++ newline ++ spaces indent ++ "]")%string
  | JObj [] => "{}"
  | JObj fields =>
      ("{" ++ newline
       ++ String.concat ("," ++ newline)
            (map (fun kv => spaces (indent + 2) ++ quote (fst kv) ++ ": "
                            ++ stringify2 (indent + 2) (snd kv)) fields)
       ++ newline ++ spaces indent ++ "}")%string
  end.

(** UTF-8 decoding of bytes below 128. *)
Definition decode (bytes : list byte) : string := string_of_list_byte bytes.

(** JSON text written with single quotes for the double ones. *)
Fixpoint sq (s : string) : string :=
  match s with
  | EmptyString => EmptyString
  | String c rest =>
      String (if Nat.eqb (nat_of_ascii c) 39 then ascii_of_nat 34 else c) (sq rest)
  end.

End Mini.

#[export] Instance MiniJS : JSRuntime := {
  JSON_parse := Mini.parse;
  JSON_stringify2 := Mini.stringify2 0;
  Buffer_toString := Mini.decode
}.

(** ** A stand-in for Automerge to run the model: [PlainDocs]

    A document is a plain object; merging writes the incoming fields over
    the local ones. *)

Module Plain.

Fixpoint set_field (k : string) (v : JSON) (fields : list (string * JSON))
    : list (string * JSON) :=
  match fields with
  | [] => [(k, v)]
  | (k', v') :: rest =>
      if String.eqb k k' then (k, v) :: rest else (k', v') :: set_field k v rest
  end.

Definition from (seed : JSON) : option JSON :=
  match seed with
  | JObj _ => Some seed
  | _ => Some (JObj [])
  end.

Definition load (payload : option JSON) : option JSON :=
  match payload with
  | Some (JStr s) =>
      match Mini.parse s with
      | Some (JObj fields) => Some (JObj fields)
      | _ => None
      end
  | _ => None
  end.

Definition merge (local remote : JSON) : JSON :=
  match local, remote with
  | JObj fl, JObj fr => JObj (fold_left (fun acc kv => set_field (fst kv) (snd kv) acc) fr fl)
  | _, _ => local
  end.

End Plain.

#[export] Instance PlainDocs : AutomergeLib := {
  Doc := JSON;
  am_from := Plain.from;
  am_save := Mini.stringify2 0;
  am_load := Plain.load;
  am_merge := Plain.merge;
  am_view := fun d => d;
  am_from_emptyShape := ltac:(discriminate)
}.


(** ** Reading a trace *)

(** The trace without its log lines. *)
Definition effects (tr : list Event) : list Event :=
  filter (fun e => match e with ELog _ => false | _ => true end) tr.

(** The events that send a message of the given [type]. *)
Definition is_send_of (type : string) (e : Event) : bool :=
  match e with
  | ESend _ m _ => is_str (get_field m "type") type
  | _ => false
  end.

(** The elements up to and including the first one that satisfies [p]. *)
Fixpoint take_until {A : Type} (p : A -> bool) (l : list A) : list A :=
  match l with
  | [] => []
  | x :: rest => if p x then [x] else x :: take_until p rest
  end.

(** One call of [send] on [c], as the trace records it. *)
Definition attempt (m : JSON) (c : Conn) : Event :=
  ESend (conn_id c) m (negb (send_throws c)).

Definition delivery (m : JSON) (c : Conn) : Event :=
  ESend (conn_id c) m true.

(** Whether the next [writeFileSync] goes through. *)
Definition write_ok (dk : list WriteOutcome) : bool :=
  match dk with
  | WriteFails _ :: _ => false
  | _ => true
  end.

(** The file after the next [writeFileSync] of [content]. *)
Definition written (content : string) (dk : list WriteOutcome) : option string :=
  match dk with
  | WriteFails residue :: _ => residue
  | _ => Some content
  end.

Section Reading.

Context {RT : JSRuntime} {AM : AutomergeLib}.

(** The state after [persistJson] ran in [w]. *)
Definition after_persist (w : World) : World :=
  mkWorld (doc w)
          (written (JSON_stringify2 (am_view (doc w))) (disk w))
          (tl (disk w)) (clients w) (nextClientId w).

(** The state after [doc] was replaced by [d]. *)
Definition with_doc (d : Doc) (w : World) : World :=
  mkWorld d (snapshot w) (disk w) (clients w) (nextClientId w).

(** What the debug echo leaves in the trace. *)
Definition echo_trace (ws : Conn) (data : Data) : list Event :=
  [ELog (LRecv (conn_id ws) (String.length (text_of data)) (isBuffer data));
   attempt (debugEcho (String.length (text_of data))) ws]
  ++ (if send_throws ws then [ELog LDebugEchoFailed] else []).

(** [type] and [payload] of a parsed frame: [const { type, payload } = msg || {}]. *)
Definition type_of (msg : JSON) : option JSON := get_field (or_empty_object msg) "type".
Definition payload_of (msg : JSON) : option JSON := get_field (or_empty_object msg) "payload".

(** The trace of a run and the state it ends in. *)
Definition trace_of {A : Type} (run : World * list Event * Completion A) : list Event :=
  snd (fst run).
Definition world_of {A : Type} (run : World * list Event * Completion A) : World :=
  fst (fst run).

(** *** Readings of the protocol that the script does not meet

    Each is refuted on a sample run further down. *)

(** The sender is sent nothing while its frame [data] is handled. *)
Definition answers_nothing (ws : Conn) (data : Data) (iso : string) (w : World) : Prop :=
  forall m ok, ~ In (ESend (conn_id ws) m ok) (trace_of (onMessage ws data iso w)).

(** Every open client is sent the merged state while [data] is handled. *)
Definition reaches_every_open (ws : Conn) (data : Data) (iso : string) (w : World) : Prop :=
  let run := onMessage ws data iso w in
  forall c, In c (clients w) -> is_open c = true ->
    exists ok, In (ESend (conn_id c) (fullMessage (am_save (doc (world_of run)))) ok)
                  (trace_of run).

(** A throwing [send] costs no healthy open client its copy. *)
Definition isolates_send_failures (w : World) : Prop :=
  forall c, In c (clients w) -> is_open c = true -> send_throws c = false ->
    In (delivery (fullMessage (am_save (doc w))) c) (trace_of (broadcast w)).

(** [manifest.json] exists and holds a seed Automerge accepts. *)
Definition snapshot_loadable (w : World) : Prop :=
  exists text seed d,
    snapshot w = Some text /\ JSON_parse text = Some seed /\ am_from seed = Some d.


(** Only the path ["/"] is served; everything else is not found. *)
Definition serves_root_only (client_html : option string) : Prop :=
  forall req, pathname (req_url req) <> "/" ->
    status (httpHandler client_html req) = 404.

End Reading.

(** ** Sessions, and the helpers of the log lines *)

(** Whether the character [c] occurs in [s]. *)
Fixpoint has (c : ascii) (s : string) : bool :=
  match s with
  | EmptyString => false
  | String a rest => Ascii.eqb a c || has c rest
  end.

(** The text before the first [c]; all of [s] when there is none. *)
Fixpoint upto (c : ascii) (s : string) : string :=
  match s with
  | EmptyString => EmptyString
  | String a rest => if Ascii.eqb a c then EmptyString else String a (upto c rest)
  end.

(** The text after the first [c]; [None] when there is none. *)
Fixpoint after_first (c : ascii) (s : string) : option string :=
  match s with
  | EmptyString => None
  | String a rest => if Ascii.eqb a c then Some rest else after_first c rest
  end.

(** [s.replace(c, "")] for a one-character pattern: the first [c] goes. *)
Fixpoint remove_first (c : ascii) (s : string) : string :=
  match s with
  | EmptyString => EmptyString
  | String a rest => if Ascii.eqb a c then rest else String a (remove_first c rest)
  end.

(** [ts] on the ISO string of the clock: [iso.split("T")[1].replace("Z", "")].
    [None]: [split] gave no second part and [replace] threw. *)
Definition ts_of (iso : string) : option string :=
  match after_first "T" iso with
  | Some rest => Some (remove_first "Z" (upto "T" rest))
  | None => None
  end.

(** [s.replace(/\n/g, "\\n")] *)
Fixpoint escape_newlines (s : string) : string :=
  match s with
  | EmptyString => EmptyString
  | String a rest =>
      if Ascii.eqb a (ascii_of_nat 10)
      then String "\" (String "n" (escape_newlines rest))
      else String a (escape_newlines rest)
  end.

(** [peek], the excerpt of the frame in the receive log line:
    [(text || "").slice(0, 120).replace(/\n/g, "\\n")]. *)
Definition peek (text : string) : string :=
  escape_newlines (substring 0 120 text).

Section Sessions.

Context {RT : JSRuntime} {AM : AutomergeLib}.

(** What the event loop hands to the listeners of the WebSocket server: a
    new connection, or a frame on a socket together with the clock reading
    of its acknowledgment. *)
Inductive Step : Type :=
| Connects (st : ReadyState) (throws : bool)
| Receives (ws : Conn) (data : Data) (iso : string).

(** Listeners run one after the other, each to completion. *)
Fixpoint session (steps : list Step) : M unit :=
  match steps with
  | [] => ret tt
  | Connects st throws :: rest => onConnection st throws ;; session rest
  | Receives ws data iso :: rest => onMessage ws data iso ;; session rest
  end.

(** The document a frame brings in: the frame parses, its [type] is
    ["full"] and Automerge loads its [payload]. *)
Definition incoming_doc (data : Data) : option Doc :=
  match JSON_parse (text_of data) with
  | Some msg => if is_str (type_of msg) "full" then am_load (payload_of msg) else None
  | None => None
  end.

(** The documents a session brings in, in order of receipt. *)
Fixpoint incoming_docs (steps : list Step) : list Doc :=
  match steps with
  | [] => []
  | Connects _ _ :: rest => incoming_docs rest
  | Receives _ data _ :: rest =>
      match incoming_doc data with
      | Some inc => inc :: incoming_docs rest
      | None => incoming_docs rest
      end
  end.

(** The sockets a session adds to the registry, given the next free id. *)
Fixpoint newcomers (next : nat) (steps : list Step) : list Conn :=
  match steps with
  | [] => []
  | Connects st throws :: rest => mkConn next st throws :: newcomers (S next) rest
  | Receives _ _ _ :: rest => newcomers next rest
  end.

(** [manifest.json] holds [JSON.stringify(doc, null, 2)]. *)
Definition snapshot_in_sync (w : World) : Prop :=
  snapshot w = Some (JSON_stringify2 (am_view (doc w))).

(** The registry lists its sockets by increasing id, all below
    [nextClientId]. *)
Definition ids_in_order (w : World) : Prop :=
  StronglySorted lt (map conn_id (clients w))
  /\ Forall (fun c => conn_id c < nextClientId w) (clients w).

End Sessions.

(** ** Sample connections, worlds and frames

    Over [MiniJS] and [PlainDocs]. *)

Module Sample.

Definition alice : Conn := mkConn 1 OPEN false.
Definition gone : Conn := mkConn 2 CLOSED false.
Definition bob : Conn := mkConn 3 OPEN false.
(** An open socket whose [send] throws. *)
Definition broken : Conn := mkConn 2 OPEN true.

(** Three clients, the second one closed; the disk accepts writes. *)
Definition quiet : World (AM := PlainDocs) :=
  mkWorld (AM := PlainDocs) emptyShape (Some (Mini.stringify2 0 emptyShape)) []
          [alice; gone; bob] 4.

(** The same on a disk that refused the seed write, refuses the next write
    and then recovers. *)
Definition readonly : World (AM := PlainDocs) :=
  mkWorld (AM := PlainDocs) emptyShape None [WriteFails None; WriteOk]
          [alice; gone; bob] 4.

(** The first client has left; [broken] joined before [bob]. *)
Definition faulty : World (AM := PlainDocs) :=
  mkWorld (AM := PlainDocs) emptyShape (Some (Mini.stringify2 0 emptyShape)) []
          [broken; bob] 4.



Definition helloFrame : Data := DString (Mini.sq "{'type':'hello'}").
Definition fullFrame : Data :=
  DString (Mini.sq "{'type':'full','payload':'{\'field\':\'x\'}'}").
Definition badFullFrame : Data :=
  DString (Mini.sq "{'type':'full','payload':'not a document'}").
Definition brokenFrame : Data := DString "{".

Definition noon : string := "2024-01-01T12:00:00.000Z".

End Sample.

(** ** A sample session

    Over [MiniJS] and [PlainDocs], with the frames of [Sample]. *)

Module Scenario.

Import Sample.

Definition pingFrame : Data := DString (Mini.sq "{'type':'ping','t':1}").
Definition nullFrame : Data := DString "null".

(** The state right after a startup that seeded the skeleton. *)
Definition booted : World (AM := PlainDocs) :=
  boot (AM := PlainDocs) emptyShape (Some (Mini.stringify2 0 emptyShape)) [].

(** A client connects and pushes a document; a second one connects, sends
    a payload that does not load and then asks for the state. *)
Definition morning : list Step :=
  [ Connects OPEN false;
    Receives (mkConn 1 OPEN false) fullFrame noon;
    Connects OPEN false;
    Receives (mkConn 2 OPEN false) badFullFrame noon;
    Receives (mkConn 2 OPEN false) helloFrame noon ].

End Scenario.

(** ** A document whose question text has no string conversion *)

Module Poison.

Import Sample.

(** [{pages: [{questionRows: [{elements: [{questionText: {toString: 1}}]}]}]}] *)
Definition poisoned : JSON :=
  JObj [("pages", JArr [JObj [("questionRows", JArr [JObj [("elements",
          JArr [JObj [("questionText", JObj [("toString", JNum 1)])]])]])]])].

(** The [full] frame that carries it. *)
Definition poisonFrame : Data :=
  DString (Mini.sq
    "{'type':'full','payload':'{\'pages\':[{\'questionRows\':[{\'elements\':[{\'questionText\':{\'toString\':1}}]}]}]}'}").

(** The manifest that holds it. *)
Definition poisonManifest : string := Mini.stringify2 0 poisoned.

End Poison.

Section Execution.

Context {RT : JSRuntime} {AM : AutomergeLib}.

Lemma forEach_send_run (m : JSON) (cs : list Conn) (sent : nat) (w : World) :
  forEach_send m cs sent w =
    (w, map (attempt m) (take_until send_throws (filter is_open cs)),
     if existsb send_throws (filter is_open cs)
     then Throw
     else Normal (sent + List.length (filter is_open cs))).
Proof.
  revert sent. induction cs as [|c cs IH]; intros sent; simpl.
  - unfold ret. now rewrite Nat.add_0_r.
  - destruct (is_open c) eqn:Ho; simpl; [|apply IH].
    unfold bind, ws_send. destruct (send_throws c) eqn:Ht; simpl.
    + unfold attempt. now rewrite Ht.
    + rewrite IH. unfold attempt at 2. rewrite Ht. simpl.
      destruct (existsb _ _); [reflexivity|].
      now rewrite Nat.add_succ_r.
Qed.


Lemma bind_normal {A B : Type} (m : M A) (k : A -> M B) (w w1 : World)
    (t1 : list Event) (a : A) :
  m w = (w1, t1, Normal a) ->
  bind m k w = match k a w1 with
               | (w2, t2, r) => (w2, t1 ++ t2, r)
               end.
Proof. intros H. unfold bind. now rewrite H. Qed.

Lemma log_template_one (v : JSON) (l : LogEntry) :
  log_template [v] l = if convertible v then log l else throw.
Proof. unfold log_template. simpl. now rewrite andb_true_r. Qed.

(** [persistJson] never raises.  The [saved] log line sits inside the
    [try]: when its template literal raises, the file is written and the
    error line is logged all the same. *)
Lemma persistJson_run (w : World) :
  persistJson w =
    (after_persist w,
     [EWrite (JSON_stringify2 (am_view (doc w))) (write_ok (disk w));
      ELog (if write_ok (disk w) && convertible (qText (doc w))
            then LPersistSaved (qText (doc w))
            else LPersistWriteError)],
     Normal tt).
Proof.
  unfold persistJson, try_catch, bind, get_doc, fs_writeFileSync, after_persist.
  rewrite log_template_one. unfold log, emit, throw.
  destruct w as [d sn dk cs nx]; simpl.
  destruct dk as [|[|residue] rest]; simpl; destruct (convertible (qText d)); reflexivity.
Qed.

Lemma sendAck_run (ws : Conn) (iso : string) (w : World) :
  sendAck ws iso w =
    (w,
     [attempt (persistedAck iso (qText (doc w))) ws;
      ELog (if send_throws ws then LAckFailed (conn_id ws) else LAckOk (conn_id ws))],
     Normal tt).
Proof.
  unfold sendAck, try_catch, bind, get_doc, ws_send, log, emit, attempt.
  destruct (send_throws ws); reflexivity.
Qed.

Lemma replyHello_run (ws : Conn) (w : World) :
  replyHello ws w =
    (w,
     [attempt (fullMessage (am_save (doc w))) ws;
      ELog (if send_throws ws || negb (convertible (qText (doc w)))
            then LHelloFailed (conn_id ws)
            else LHelloSent (conn_id ws) (qText (doc w)))],
     Normal tt).
Proof.
  unfold replyHello, try_catch, bind, get_doc, ws_send, attempt.
  rewrite log_template_one. unfold log, emit, throw.
  destruct (send_throws ws); simpl; destruct (convertible (qText (doc w))); reflexivity.
Qed.

Lemma broadcast_run (w : World) :
  broadcast w =
    (w,
     map (attempt (fullMessage (am_save (doc w))))
         (take_until send_throws (filter is_open (clients w)))
     ++ [ELog (if existsb send_throws (filter is_open (clients w))
                  || negb (convertible (qText (doc w)))
               then LBroadcastFailed
               else LBroadcastSent (List.length (filter is_open (clients w))) (qText (doc w)))],
     Normal tt).
Proof.
  unfold broadcast, try_catch, bind, get_doc, get_clients, log_template.
  cbn [forallb]. rewrite andb_true_r, forEach_send_run. unfold log, emit, throw.
  destruct (existsb send_throws (filter is_open (clients w))); simpl.
  - reflexivity.
  - destruct (convertible (qText (doc w))); simpl; rewrite ?app_nil_r; reflexivity.
Qed.

(** The listener is the echo followed by the dispatch on the parsed frame. *)
Lemma onMessage_unfold (ws : Conn) (data : Data) (iso : string) (w : World) (k : M unit) :
  (log (LRecv (conn_id ws) (String.length (text_of data)) (isBuffer data)) ;;
   (try (ws_send ws (debugEcho (String.length (text_of data))))
    catch (log LDebugEchoFailed)) ;;
   k) w
  = match k w with
    | (w', t, r) => (w', echo_trace ws data ++ t, r)
    end.
Proof.
  unfold echo_trace, try_catch, bind, ws_send, log, emit, attempt.
  destruct (send_throws ws); simpl; destruct (k w) as [[w' t] r]; reflexivity.
Qed.

(** [msg || {}] is never [null], so the destructuring that follows it
    answers. *)
Lemma destructure_or_empty_object (msg : JSON) :
  destructure (or_empty_object msg) = Some (type_of msg, payload_of msg).
Proof.
  unfold type_of, payload_of.
  destruct msg as [|[|]|[|n|n]|[|c s]|l|fields]; reflexivity.
Qed.

Lemma onMessage_invalid_run ws data iso w :
  JSON_parse (text_of data) = None ->
  onMessage ws data iso w
  = (w, echo_trace ws data ++ [ELog (LInvalidJSON (conn_id ws))], Normal tt).
Proof.
  intros Hp. unfold onMessage. rewrite onMessage_unfold by exact iso.
  now rewrite Hp.
Qed.

Lemma onMessage_hello_run ws data iso w msg :
  JSON_parse (text_of data) = Some msg ->
  is_str (type_of msg) "hello" = true ->
  onMessage ws data iso w
  = (w,
     echo_trace ws data
     ++ [attempt (fullMessage (am_save (doc w))) ws;
         ELog (if send_throws ws || negb (convertible (qText (doc w)))
               then LHelloFailed (conn_id ws)
               else LHelloSent (conn_id ws) (qText (doc w)))],
     Normal tt).
Proof.
  intros Hp Ht. unfold onMessage. rewrite onMessage_unfold by exact iso.
  rewrite Hp, destructure_or_empty_object, Ht. now rewrite replyHello_run.
Qed.

Lemma onMessage_other_run ws data iso w msg :
  JSON_parse (text_of data) = Some msg ->
  is_str (type_of msg) "hello" = false ->
  is_str (type_of msg) "full" = false ->
  onMessage ws data iso w
  = (w, echo_trace ws data ++ [ELog (LIgnoring (conn_id ws) (type_of msg))], Normal tt).
Proof.
  intros Hp Hh Hf. unfold onMessage. rewrite onMessage_unfold by exact iso.
  rewrite Hp, destructure_or_empty_object. now rewrite Hh, Hf.
Qed.

Lemma is_str_hello_full (v : option JSON) :
  is_str v "full" = true -> is_str v "hello" = false.
Proof.
  destruct v as [[| | |s| |]|]; simpl; try discriminate.
  intros H. apply String.eqb_eq in H. now subst.
Qed.

Lemma onMessage_badload_run ws data iso w msg :
  JSON_parse (text_of data) = Some msg ->
  is_str (type_of msg) "full" = true ->
  am_load (payload_of msg) = None ->
  onMessage ws data iso w
  = (w, echo_trace ws data ++ [ELog (LLoadStringFailed (conn_id ws))], Normal tt).
Proof.
  intros Hp Hf Hl. unfold onMessage. rewrite onMessage_unfold by exact iso.
  rewrite Hp, destructure_or_empty_object.
  rewrite (is_str_hello_full _ Hf), Hf, Hl. reflexivity.
Qed.

(** A loaded [full] frame whose [merge] log line can be formatted. *)
Lemma onMessage_full_run ws data iso w msg inc :
  JSON_parse (text_of data) = Some msg ->
  is_str (type_of msg) "full" = true ->
  am_load (payload_of msg) = Some inc ->
  let d' := am_merge (doc w) inc in
  forallb convertible [qText inc; qText (doc w); qText d'] = true ->
  onMessage ws data iso w
  = (after_persist (with_doc d' w),
     echo_trace ws data
     ++ [ELog (LMerge (conn_id ws) (qText inc) (qText (doc w)) (qText d'));
         EWrite (JSON_stringify2 (am_view d')) (write_ok (disk w));
         ELog (if write_ok (disk w) && convertible (qText d')
               then LPersistSaved (qText d')
               else LPersistWriteError);
         attempt (persistedAck iso (qText d')) ws;
         ELog (if send_throws ws then LAckFailed (conn_id ws) else LAckOk (conn_id ws))]
     ++ map (attempt (fullMessage (am_save d')))
            (take_until send_throws (filter is_open (clients w)))
     ++ [ELog (if existsb send_throws (filter is_open (clients w))
                  || negb (convertible (qText d'))
               then LBroadcastFailed
               else LBroadcastSent (List.length (filter is_open (clients w))) (qText d'))],
     Normal tt).
Proof.
  intros Hp Hf Hl d' Hc. unfold onMessage. rewrite onMessage_unfold by exact iso.
  rewrite Hp, destructure_or_empty_object.
  rewrite (is_str_hello_full _ Hf), Hf, Hl. cbn [negb].
  erewrite bind_normal by reflexivity.
  erewrite bind_normal by reflexivity. simpl doc.
  erewrite bind_normal by reflexivity. cbn [doc]. fold d'.
  erewrite bind_normal by (unfold log_template; rewrite Hc; reflexivity).
  erewrite bind_normal by apply persistJson_run.
  erewrite bind_normal by apply sendAck_run.
  rewrite broadcast_run. reflexivity.
Qed.

(** A loaded [full] frame whose [merge] log line cannot be formatted: the
    exception leaves the listener once [doc] is replaced; nothing is written
    and nothing but the echo is sent. *)
Lemma onMessage_full_raise ws data iso w msg inc :
  JSON_parse (text_of data) = Some msg ->
  is_str (type_of msg) "full" = true ->
  am_load (payload_of msg) = Some inc ->
  let d' := am_merge (doc w) inc in
  forallb convertible [qText inc; qText (doc w); qText d'] = false ->
  onMessage ws data iso w = (with_doc d' w, echo_trace ws data, Throw).
Proof.
  intros Hp Hf Hl d' Hc. unfold onMessage. rewrite onMessage_unfold by exact iso.
  rewrite Hp, destructure_or_empty_object.
  rewrite (is_str_hello_full _ Hf), Hf, Hl. cbn [negb].
  erewrite bind_normal by reflexivity.
  erewrite bind_normal by reflexivity. simpl doc.
  erewrite bind_normal by reflexivity. cbn [doc]. fold d'.
  unfold bind at 1. unfold log_template. rewrite Hc. unfold throw.
  now rewrite app_nil_r.
Qed.

(** *** Reading the traces *)

Lemma effects_app (a b : list Event) : effects (a ++ b) = effects a ++ effects b.
Proof. apply filter_app. Qed.

Lemma effects_attempts (m : JSON) (cs : list Conn) :
  effects (map (attempt m) cs) = map (attempt m) cs.
Proof. induction cs as [|c cs IH]; simpl; [reflexivity | now rewrite IH]. Qed.

Lemma effects_echo (ws : Conn) (data : Data) :
  effects (echo_trace ws data) = [attempt (debugEcho (String.length (text_of data))) ws].
Proof. unfold echo_trace. destruct (send_throws ws); reflexivity. Qed.

Lemma sends_of_echo (type : string) (ws : Conn) (data : Data) :
  filter (is_send_of type) (echo_trace ws data)
  = if String.eqb "debug_echo" type
    then [attempt (debugEcho (String.length (text_of data))) ws]
    else [].
Proof.
  unfold echo_trace. simpl.
  destruct (String.eqb "debug_echo" type); destruct (send_throws ws); reflexivity.
Qed.

Lemma sends_of_attempts (type : string) (m : JSON) (cs : list Conn) :
  filter (is_send_of type) (map (attempt m) cs)
  = if is_str (get_field m "type") type then map (attempt m) cs else [].
Proof.
  induction cs as [|c cs IH]; simpl.
  - now destruct (is_str _ _).
  - rewrite IH. now destruct (is_str _ _).
Qed.

Lemma take_until_all {A : Type} (p : A -> bool) (l : list A) :
  existsb p l = false -> take_until p l = l.
Proof.
  induction l as [|x l IH]; simpl; [reflexivity|].
  destruct (p x); simpl; [discriminate|]. intros H. now rewrite IH.
Qed.

Lemma attempt_delivery (m : JSON) (cs : list Conn) :
  existsb send_throws cs = false -> map (attempt m) cs = map (delivery m) cs.
Proof.
  induction cs as [|c cs IH]; simpl; [reflexivity|].
  unfold attempt at 1, delivery at 1.
  destruct (send_throws c); simpl; [discriminate|]. intros H. now rewrite IH.
Qed.

Lemma written_ok (content : string) (dk : list WriteOutcome) :
  write_ok dk = true -> written content dk = Some content.
Proof. destruct dk as [|[|r] l]; simpl; congruence. Qed.

(** The ways through the listener; a loaded [full] frame goes on or raises
    at its [merge] log line. *)
Lemma onMessage_cases (data : Data) :
  (JSON_parse (text_of data) = None)
  \/ (exists msg, JSON_parse (text_of data) = Some msg
                  /\ is_str (type_of msg) "hello" = true)
  \/ (exists msg, JSON_parse (text_of data) = Some msg
                  /\ is_str (type_of msg) "hello" = false
                  /\ is_str (type_of msg) "full" = false)
  \/ (exists msg, JSON_parse (text_of data) = Some msg
                  /\ is_str (type_of msg) "full" = true
                  /\ am_load (payload_of msg) = None)
  \/ (exists msg inc, JSON_parse (text_of data) = Some msg
                      /\ is_str (type_of msg) "full" = true
                      /\ am_load (payload_of msg) = Some inc).
Proof.
  destruct (JSON_parse (text_of data)) as [msg|]; [|now left].
  right. destruct (is_str (type_of msg) "hello") eqn:Hh; [left; now exists msg|].
  right. destruct (is_str (type_of msg) "full") eqn:Hf; [|left; now exists msg].
  right. destruct (am_load (payload_of msg)) as [inc|] eqn:Hl.
  - right. now exists msg, inc.
  - left. now exists msg.
Qed.

End Execution.

(** ** The protocol, claim by claim *)

Unset Implicit Arguments.

Section Protocol.

Context {RT : JSRuntime} {AM : AutomergeLib}.



(** C3, as amended: A frame that is not well-formed JSON is logged and
    dropped: the state (document, snapshot, registry) is left as it was and
    the only frame sent is the [debug_echo] to the sender that precedes
    parsing; nothing goes to any other connection. *)
Theorem invalid_json_only_echoed (ws : Conn) (data : Data) (iso : string) (w : World) :
  JSON_parse (text_of data) = None ->
  exists tr,
    onMessage ws data iso w = (w, tr, Normal tt)
    /\ effects tr = [attempt (debugEcho (String.length (text_of data))) ws]
    /\ In (ELog (LInvalidJSON (conn_id ws))) tr.
Proof.
  intros Hp. rewrite (onMessage_invalid_run ws data iso w Hp).
  eexists. split; [reflexivity|]. split.
  - rewrite effects_app, effects_echo. reflexivity.
  - apply in_or_app. right. now left.
Qed.

(** C2: A [full] frame whose payload Automerge cannot load leaves the
    state as it was (no merge, no write to the snapshot), and nothing is sent
    beyond the [debug_echo]: no [persisted] acknowledgment and no [full]
    message to anyone. *)
Theorem unloadable_full_changes_nothing (ws : Conn) (data : Data) (iso : string)
    (w : World) (msg : JSON) :
  JSON_parse (text_of data) = Some msg ->
  is_str (type_of msg) "full" = true ->
  am_load (payload_of msg) = None ->
  exists tr,
    onMessage ws data iso w = (w, tr, Normal tt)
    /\ effects tr = [attempt (debugEcho (String.length (text_of data))) ws]
    /\ filter (is_send_of "persisted") tr = []
    /\ filter (is_send_of "full") tr = []
    /\ In (ELog (LLoadStringFailed (conn_id ws))) tr.
Proof.
  intros Hp Hf Hl. rewrite (onMessage_badload_run ws data iso w Hp Hf Hl).
  eexists. split; [reflexivity|]. repeat split.
  - rewrite effects_app, effects_echo. reflexivity.
  - rewrite filter_app, sends_of_echo. reflexivity.
  - rewrite filter_app, sends_of_echo. reflexivity.
  - apply in_or_app. right. now left.
Qed.

(** C5: On [hello] the listener sends the sender one message
    [{type: "full", payload: s}] where [s] is [Automerge.save] of the document
    as it is at that moment, and the state, the document included, is left as
    it was. *)
Theorem hello_gets_current_full (ws : Conn) (data : Data) (iso : string)
    (w : World) (msg : JSON) :
  JSON_parse (text_of data) = Some msg ->
  is_str (type_of msg) "hello" = true ->
  let reply :=
    ESend (conn_id ws)
          (JObj [("type", JStr "full"); ("payload", JStr (am_save (doc w)))])
          (negb (send_throws ws)) in
  exists tr,
    onMessage ws data iso w = (w, tr, Normal tt)
    /\ effects tr
       = [ESend (conn_id ws)
                (JObj [("type", JStr "debug_echo");
                       ("bytes", JNum (Z.of_nat (String.length (text_of data))))])
                (negb (send_throws ws));
          reply]
    /\ filter (is_send_of "full") tr = [reply].
Proof.
  intros Hp Hh reply. rewrite (onMessage_hello_run ws data iso w Hp Hh).
  eexists. split; [reflexivity|]. split.
  - rewrite effects_app, effects_echo. reflexivity.
  - rewrite filter_app, sends_of_echo. reflexivity.
Qed.

(** C4, as amended: [broadcast] goes through [wss.clients] in order, skips
    the sockets that are not open and calls [send] once on each open one; it
    never raises to its caller and leaves the state alone.  A [send] that
    throws ends the loop: the open sockets before it were served, the ones
    after it are not tried.  When no [send] throws, every open socket is
    delivered the message exactly once. *)
Theorem broadcast_stops_at_first_failure (w : World) :
  let m := fullMessage (am_save (doc w)) in
  let opens := filter is_open (clients w) in
  exists tr,
    broadcast w = (w, tr, Normal tt)
    /\ effects tr = map (attempt m) (take_until send_throws opens)
    /\ (existsb send_throws opens = false -> effects tr = map (delivery m) opens).
Proof.
  intros m opens. rewrite broadcast_run. eexists. split; [reflexivity|].
  assert (E : forall l,
             effects (map (attempt m) (take_until send_throws opens) ++ [ELog l])
             = map (attempt m) (take_until send_throws opens)).
  { intros l. rewrite effects_app, effects_attempts. simpl. apply app_nil_r. }
  split; [apply E|].
  intros Hnone. fold m opens. rewrite E.
  rewrite (take_until_all _ _ Hnone). now apply attempt_delivery.
Qed.

(** C1, as amended: A [full] frame that Automerge loads, and whose [merge]
    log line can be formatted, is handled in this order: the document becomes
    the merge of the current one with the incoming one, the merged document is
    written to the snapshot, one [persisted] acknowledgment is sent to the
    sender and to nobody else, and then the message
    [{type: "full", payload: s}], [s] being [Automerge.save] of the merged
    document, is sent to the open sockets in registry order, up to and
    including the first one whose [send] throws.  When no [send] to an open
    socket throws, every open socket, the sender included, is delivered that
    message exactly once. *)
Theorem full_merge_persist_ack_broadcast (ws : Conn) (data : Data) (iso : string)
    (w : World) (msg : JSON) (inc : Doc) :
  JSON_parse (text_of data) = Some msg ->
  is_str (type_of msg) "full" = true ->
  am_load (payload_of msg) = Some inc ->
  let d' := am_merge (doc w) inc in
  forallb convertible [qText inc; qText (doc w); qText d'] = true ->
  let opens := filter is_open (clients w) in
  let full := JObj [("type", JStr "full"); ("payload", JStr (am_save d'))] in
  let ack :=
    ESend (conn_id ws)
          (JObj [("type", JStr "persisted");
                 ("payload", JObj [("at", JStr iso); ("questionText", qText d')])])
          (negb (send_throws ws)) in
  exists w' tr,
    onMessage ws data iso w = (w', tr, Normal tt)
    /\ doc w' = d'
    /\ effects tr
       = [ESend (conn_id ws)
                (JObj [("type", JStr "debug_echo");
                       ("bytes", JNum (Z.of_nat (String.length (text_of data))))])
                (negb (send_throws ws));
          EWrite (JSON_stringify2 (am_view d')) (write_ok (disk w));
          ack]
         ++ map (fun c => ESend (conn_id c) full (negb (send_throws c)))
                (take_until send_throws opens)
    /\ filter (is_send_of "persisted") tr = [ack]
    /\ (existsb send_throws opens = false ->
        filter (is_send_of "full") tr = map (fun c => ESend (conn_id c) full true) opens
        /\ (In ws (clients w) -> is_open ws = true ->
            In (ESend (conn_id ws) full true) tr)).
Proof.
  intros Hp Hf Hl d' Hc opens full ack.
  rewrite (onMessage_full_run ws data iso w Hp Hf Hl Hc).
  fold d' opens. eexists _, _. split; [reflexivity|]. split; [reflexivity|].
  split; [|split].
  - rewrite !effects_app, effects_echo, effects_attempts. simpl.
    now rewrite app_nil_r.
  - rewrite !filter_app, sends_of_echo, sends_of_attempts. reflexivity.
  - intros Hnone.
    assert (E : filter (is_send_of "full")
                  (map (attempt (fullMessage (am_save d'))) (take_until send_throws opens))
                = map (delivery (fullMessage (am_save d'))) opens).
    { rewrite sends_of_attempts. simpl.
      rewrite (take_until_all _ _ Hnone). now apply attempt_delivery. }
    split.
    + rewrite !filter_app, sends_of_echo, E. simpl. now rewrite app_nil_r.
    + intros Hin Hopen. apply in_or_app. right. apply in_or_app. right.
      apply in_or_app. left.
      rewrite (take_until_all _ _ Hnone), (attempt_delivery _ _ Hnone).
      change (In (delivery (fullMessage (am_save d')) ws)
                 (map (delivery (fullMessage (am_save d'))) opens)).
      apply in_map. apply filter_In. now split.
Qed.

(** X19: When the write of the snapshot fails during a [full] frame, the
    failure is logged and goes no further: the document in memory is the
    merged one, and the acknowledgment and the broadcast run as they do after
    a successful write.  The next [full] frame that gets past its [merge] log
    line writes the snapshot again, from the document as merged by then. *)
Theorem persist_failure_stays_local (ws : Conn) (data : Data) (iso : string)
    (w : World) (msg : JSON) (inc : Doc) (residue : option string)
    (later : list WriteOutcome) :
  JSON_parse (text_of data) = Some msg ->
  is_str (type_of msg) "full" = true ->
  am_load (payload_of msg) = Some inc ->
  disk w = WriteFails residue :: later ->
  let d' := am_merge (doc w) inc in
  forallb convertible [qText inc; qText (doc w); qText d'] = true ->
  exists w' tr,
    onMessage ws data iso w = (w', tr, Normal tt)
    /\ In (ELog LPersistWriteError) tr
    /\ doc w' = d'
    /\ effects tr
       = [attempt (debugEcho (String.length (text_of data))) ws;
          EWrite (JSON_stringify2 (am_view d')) false;
          attempt (persistedAck iso (qText d')) ws]
         ++ map (attempt (fullMessage (am_save d')))
                (take_until send_throws (filter is_open (clients w)))
    /\ forall ws2 data2 iso2 msg2 inc2,
         JSON_parse (text_of data2) = Some msg2 ->
         is_str (type_of msg2) "full" = true ->
         am_load (payload_of msg2) = Some inc2 ->
         let d2 := am_merge d' inc2 in
         forallb convertible [qText inc2; qText d'; qText d2] = true ->
         exists w2 tr2,
           onMessage ws2 data2 iso2 w' = (w2, tr2, Normal tt)
           /\ In (EWrite (JSON_stringify2 (am_view d2)) (write_ok later)) tr2
           /\ (write_ok later = true ->
               snapshot w2 = Some (JSON_stringify2 (am_view d2))).
Proof.
  intros Hp Hf Hl Hd d' Hc. rewrite (onMessage_full_run ws data iso w Hp Hf Hl Hc).
  fold d'. rewrite Hd. simpl write_ok. cbv iota.
  eexists _, _. split; [reflexivity|]. split; [|split; [reflexivity|split]].
  - apply in_or_app. right. simpl. auto.
  - rewrite !effects_app, effects_echo, effects_attempts. simpl.
    now rewrite app_nil_r.
  - intros ws2 data2 iso2 msg2 inc2 Hp2 Hf2 Hl2 d2 Hc2.
    assert (Hdisk : disk (after_persist (with_doc d' w)) = later)
      by (unfold after_persist, with_doc; simpl; now rewrite Hd).
    rewrite (onMessage_full_run ws2 data2 iso2 (after_persist (with_doc d' w))
               Hp2 Hf2 Hl2 Hc2).
    rewrite Hdisk. change (doc (after_persist (with_doc d' w))) with d'. fold d2.
    eexists _, _. split; [reflexivity|]. split.
    + apply in_or_app. right. right. now left.
    + intros Hok. unfold after_persist at 1. unfold snapshot at 1.
      change (disk (with_doc d2 (after_persist (with_doc d' w))))
        with (disk (after_persist (with_doc d' w))).
      rewrite Hdisk. now apply written_ok.
Qed.



(** C7, as amended: When [manifest.json] is missing, is not JSON, or holds
    a seed Automerge rejects, [loadInitial] returns normally with the document
    built from the fixed skeleton and at once tries to write it to the
    snapshot; when that write goes through, the snapshot holds
    [JSON.stringify] of that document. *)
Theorem load_falls_back_to_skeleton (snap : option string) (dk : list WriteOutcome) :
  (snap = None
   \/ exists text, snap = Some text
                   /\ (JSON_parse text = None
                       \/ exists seed, JSON_parse text = Some seed /\ am_from seed = None)) ->
  exists d0 w tr,
    am_from emptyShape = Some d0
    /\ loadInitial snap dk = (tr, Some w)
    /\ doc w = d0
    /\ effects tr = [EWrite (JSON_stringify2 (am_view d0)) (write_ok dk)]
    /\ (write_ok dk = true -> snapshot w = Some (JSON_stringify2 (am_view d0))).
Proof.
  intros H.
  destruct (am_from emptyShape) as [d0|] eqn:Hs; [|now destruct am_from_emptyShape].
  assert (Hseed : forall pre, effects pre = [] ->
            exists w tr, seed_empty pre snap dk = (tr, Some w)
                         /\ doc w = d0
                         /\ effects tr = [EWrite (JSON_stringify2 (am_view d0)) (write_ok dk)]
                         /\ (write_ok dk = true ->
                             snapshot w = Some (JSON_stringify2 (am_view d0)))).
  { intros pre Hpre. unfold seed_empty. rewrite Hs, persistJson_run.
    eexists _, _. split; [reflexivity|]. split; [reflexivity|]. split.
    - rewrite effects_app, Hpre. reflexivity.
    - intros Hok. simpl. now apply written_ok. }
  exists d0.
  destruct H as [-> | (text & -> & Hbad)].
  - destruct (Hseed [ELog LLoadNoFile] eq_refl) as (w & tr & Hrun & Hrest).
    exists w, tr. split; [reflexivity|]. split; [exact Hrun | exact Hrest].
  - destruct (Hseed [ELog LLoadFound; ELog LLoadParseError] eq_refl)
      as (w & tr & Hrun & Hrest).
    exists w, tr. split; [reflexivity|]. split; [|exact Hrest].
    unfold loadInitial.
    destruct Hbad as [-> | (seed & -> & ->)]; exact Hrun.
Qed.

(** C9, as amended: Whatever the method, a request whose path (the URL up
    to its first [?], ["/"] when the URL is empty) is ["/"] or
    ["/client.html"] is answered 200 with the no-cache headers and the content
    of [client.html], or a fixed notice when that file is missing; a request
    for any other path is answered 404. *)
Theorem http_routes (client_html : option string) (req : Request) :
  let p := pathname (req_url req) in
  let r := httpHandler client_html req in
  (p = "/" \/ p = "/client.html" ->
   status r = 200
   /\ firstn 4 (headers r) = noCacheHeaders
   /\ body r = match client_html with
               | Some html => html
               | None => placeholderPage
               end)
  /\ (p <> "/" /\ p <> "/client.html" ->
      r = mkResponse 404 [("Cache-Control", JStr "no-store")] "Not found").
Proof.
  intros p r. subst r. unfold httpHandler. fold p. split.
  - intros Hp.
    assert (E : (String.eqb p "/" || String.eqb p "/client.html")%bool = true).
    { apply orb_true_iff. destruct Hp as [-> | ->]; [left | right]; reflexivity. }
    rewrite E. destruct client_html; simpl; auto.
  - intros [H1 H2].
    apply String.eqb_neq in H1. apply String.eqb_neq in H2. now rewrite H1, H2.
Qed.

End Protocol.

(** ** Sample runs *)

Module Runs.

Import Sample Poison.

Lemma invalid_json_only_echoed_witness :
  exists tr,
    onMessage alice brokenFrame noon quiet = (quiet, tr, Normal tt)
    /\ effects tr = [ESend 1 (debugEcho 1) true]
    /\ In (ELog (LInvalidJSON 1)) tr.
Proof.
  apply (invalid_json_only_echoed alice brokenFrame noon quiet).
  reflexivity.
Defined.

(** C3, as first stated, fails: the frame [{] is not JSON, and the sender
    is sent a [debug_echo] all the same. *)
Lemma invalid_json_is_answered :
  JSON_parse (text_of brokenFrame) = None
  /\ ~ answers_nothing alice brokenFrame noon quiet.
Proof.
  split; [reflexivity|].
  intros H. apply (H (debugEcho 1) true). vm_compute. auto.
Qed.

Lemma unloadable_full_changes_nothing_witness :
  exists tr,
    onMessage alice badFullFrame noon quiet = (quiet, tr, Normal tt)
    /\ effects tr = [ESend 1 (debugEcho 42) true]
    /\ filter (is_send_of "persisted") tr = []
    /\ filter (is_send_of "full") tr = []
    /\ In (ELog (LLoadStringFailed 1)) tr.
Proof.
  eapply (unloadable_full_changes_nothing alice badFullFrame noon quiet);
    reflexivity.
Defined.

Lemma hello_gets_current_full_witness :
  exists tr,
    onMessage alice helloFrame noon quiet = (quiet, tr, Normal tt)
    /\ effects tr
       = [ESend 1 (JObj [("type", JStr "debug_echo"); ("bytes", JNum 16)]) true;
          ESend 1 (JObj [("type", JStr "full");
                         ("payload", JStr (Mini.stringify2 0 emptyShape))]) true]
    /\ filter (is_send_of "full") tr
       = [ESend 1 (JObj [("type", JStr "full");
                         ("payload", JStr (Mini.stringify2 0 emptyShape))]) true].
Proof.
  exact (hello_gets_current_full alice helloFrame noon quiet
           (JObj [("type", JStr "hello")]) eq_refl eq_refl).
Defined.

Lemma broadcast_stops_at_first_failure_witness :
  exists tr,
    broadcast quiet = (quiet, tr, Normal tt)
    /\ effects tr = [ESend 1 (fullMessage (am_save (doc quiet))) true;
                     ESend 3 (fullMessage (am_save (doc quiet))) true].
Proof.
  destruct (broadcast_stops_at_first_failure quiet) as (tr & Hrun & _ & Hall).
  exists tr. split; [exact Hrun|]. apply Hall. reflexivity.
Defined.

(** C4, as first stated, fails: [broken] is served first and throws, and
    [bob], open and healthy, gets nothing. *)
Lemma broadcast_failure_starves_later_clients :
  ~ isolates_send_failures faulty.
Proof.
  intros H.
  assert (Hin := H bob (or_intror (or_introl eq_refl)) eq_refl eq_refl).
  vm_compute in Hin.
  repeat (destruct Hin as [Hin | Hin]; [discriminate Hin|]). exact Hin.
Qed.

Lemma full_merge_persist_ack_broadcast_witness :
  exists w' tr,
    onMessage alice fullFrame noon quiet = (w', tr, Normal tt)
    /\ doc w' = am_merge (doc quiet) (JObj [("field", JStr "x")])
    /\ filter (is_send_of "persisted") tr
       = [ESend 1 (JObj [("type", JStr "persisted");
                         ("payload", JObj [("at", JStr noon);
                                           ("questionText", JStr "(missing)")])]) true]
    /\ filter (is_send_of "full") tr
       = [ESend 1 (JObj [("type", JStr "full"); ("payload", JStr (am_save (doc w')))]) true;
          ESend 3 (JObj [("type", JStr "full"); ("payload", JStr (am_save (doc w')))]) true]
    /\ In (ESend 1 (JObj [("type", JStr "full"); ("payload", JStr (am_save (doc w')))]) true)
          tr.
Proof.
  assert (Hp : JSON_parse (text_of fullFrame)
               = Some (JObj [("type", JStr "full");
                             ("payload", JStr (Mini.sq "{'field':'x'}"))]))
    by reflexivity.
  destruct (full_merge_persist_ack_broadcast alice fullFrame noon quiet
              _ (JObj [("field", JStr "x")]) Hp eq_refl eq_refl eq_refl)
    as (w' & tr & Hrun & Hdoc & _ & Hack & Hall).
  destruct (Hall eq_refl) as [Hfull Hsender].
  exists w', tr. rewrite Hdoc.
  split; [exact Hrun|]. split; [reflexivity|]. split; [exact Hack|].
  split; [exact Hfull|]. apply Hsender; [left|]; reflexivity.
Defined.

(** C1, as first stated, fails: [bob]'s frame loads and is merged, but the
    broadcast ends at [broken], so [bob], open and registered, is not sent
    the merged state. *)
Lemma full_broadcast_misses_sender :
  (exists msg inc,
     JSON_parse (text_of fullFrame) = Some msg
     /\ is_str (type_of msg) "full" = true
     /\ am_load (payload_of msg) = Some inc)
  /\ ~ reaches_every_open bob fullFrame noon faulty.
Proof.
  split.
  - eexists _, _. repeat split; reflexivity.
  - intros H.
    destruct (H bob (or_intror (or_introl eq_refl)) eq_refl) as [ok Hin].
    vm_compute in Hin.
    repeat (destruct Hin as [Hin | Hin]; [discriminate Hin|]). exact Hin.
Qed.

(** C6, on the code: the write of the merged document fails and is logged;
    the next [full] frame is loaded and merged, but its [merge] log line
    cannot be formatted (the incoming question text is [{toString: 1}]): the
    listener raises with the document replaced, the snapshot is not written
    although the disk would by now accept the write, and neither the
    acknowledgment nor the broadcast is sent. *)
Lemma persist_not_retried_when_merge_log_raises :
  exists w1 tr1 w2 tr2,
    onMessage alice fullFrame noon readonly = (w1, tr1, Normal tt)
    /\ In (EWrite (JSON_stringify2 (am_view (doc w1))) false) tr1
    /\ disk w1 = [WriteOk]
    /\ (exists msg, JSON_parse (text_of poisonFrame) = Some msg
                    /\ is_str (type_of msg) "full" = true
                    /\ am_load (payload_of msg) = Some poisoned)
    /\ onMessage bob poisonFrame noon w1 = (w2, tr2, Throw)
    /\ doc w2 = am_merge (doc w1) poisoned
    /\ doc w2 <> doc w1
    /\ effects tr2
       = [ESend 3 (JObj [("type", JStr "debug_echo");
                         ("bytes", JNum (Z.of_nat (String.length (text_of poisonFrame))))])
                true]
    /\ snapshot w2 = None.
Proof.
  exists (world_of (onMessage alice fullFrame noon readonly)),
         (trace_of (onMessage alice fullFrame noon readonly)),
         (world_of (onMessage bob poisonFrame noon
                      (world_of (onMessage alice fullFrame noon readonly)))),
         (trace_of (onMessage bob poisonFrame noon
                      (world_of (onMessage alice fullFrame noon readonly)))).
  split; [reflexivity|].
  split; [vm_compute; auto 10|].
  split; [reflexivity|].
  split.
  { exists (JObj [("type", JStr "full");
                  ("payload", JStr (Mini.sq
                     "{'pages':[{'questionRows':[{'elements':[{'questionText':{'toString':1}}]}]}]}"))]).
    repeat split; reflexivity. }
  split; [reflexivity|].
  split; [reflexivity|].
  split; [intros H; vm_compute in H; discriminate H|].
  split; reflexivity.
Qed.

Lemma persist_failure_stays_local_witness :
  exists w' tr,
    onMessage alice fullFrame noon readonly = (w', tr, Normal tt)
    /\ In (ELog LPersistWriteError) tr
    /\ doc w' = am_merge (doc readonly) (JObj [("field", JStr "x")])
    /\ filter (is_send_of "persisted") (effects tr)
       = [ESend 1 (persistedAck noon (JStr "(missing)")) true]
    /\ snapshot w' = None
    /\ exists w2 tr2,
         onMessage bob helloFrame noon w' = (w2, tr2, Normal tt)
         /\ snapshot w2 = None
         /\ exists w3 tr3,
              onMessage bob fullFrame noon w2 = (w3, tr3, Normal tt)
              /\ snapshot w3 = Some (JSON_stringify2 (am_view (doc w3))).
Proof.
  assert (Hp : JSON_parse (text_of fullFrame)
               = Some (JObj [("type", JStr "full");
                             ("payload", JStr (Mini.sq "{'field':'x'}"))]))
    by reflexivity.
  destruct (persist_failure_stays_local alice fullFrame noon readonly
              _ (JObj [("field", JStr "x")]) None [WriteOk]
              Hp eq_refl eq_refl eq_refl eq_refl)
    as (w' & tr & Hrun & Hlog & Hdoc & Heff & Hnext).
  exists w', tr. split; [exact Hrun|]. split; [exact Hlog|]. split; [exact Hdoc|].
  split; [rewrite Heff; reflexivity|].
  assert (Hw : w' = world_of (onMessage alice fullFrame noon readonly))
    by (rewrite Hrun; reflexivity).
  split; [rewrite Hw; reflexivity|].
  exists w', (trace_of (onMessage bob helloFrame noon w')).
  split; [rewrite Hw; reflexivity|]. split; [rewrite Hw; reflexivity|].
  destruct (Hnext bob fullFrame noon _ (JObj [("field", JStr "x")]) Hp eq_refl eq_refl
              eq_refl)
    as (w3 & tr3 & Hrun3 & _ & Hsnap).
  exists w3, tr3. split; [exact Hrun3|].
  rewrite (Hsnap eq_refl).
  assert (Hw3 : w3 = world_of (onMessage bob fullFrame noon w'))
    by (rewrite Hrun3; reflexivity).
  rewrite Hw3, Hw. reflexivity.
Defined.

Lemma load_falls_back_to_skeleton_witness :
  exists w tr,
    loadInitial (Some "{") [] = (tr, Some w)
    /\ doc w = emptyShape
    /\ effects tr = [EWrite (JSON_stringify2 emptyShape) true]
    /\ snapshot w = Some (JSON_stringify2 emptyShape).
Proof.
  destruct (load_falls_back_to_skeleton (Some "{") [])
    as (d0 & w & tr & Hseed & Hrun & Hdoc & Heff & Hsnap).
  - right. exists "{". split; [reflexivity|]. left. reflexivity.
  - assert (Hd : d0 = emptyShape) by (injection Hseed as <-; reflexivity).
    exists w, tr. rewrite <- Hd.
    split; [exact Hrun|]. split; [exact Hdoc|]. split; [exact Heff|].
    apply Hsnap. reflexivity.
Defined.

(** C7, as first stated, fails: with no [manifest.json] and a disk that
    refuses the write, startup goes on and there is still no snapshot. *)
Lemma failed_seed_write_leaves_no_snapshot :
  exists w tr,
    loadInitial None [WriteFails None] = (tr, Some w)
    /\ snapshot w = None
    /\ ~ snapshot_loadable w.
Proof.
  eexists _, _. split; [reflexivity|]. split; [reflexivity|].
  intros (text & seed & d & H & _). discriminate H.
Qed.



Lemma http_routes_witness :
  (status (httpHandler (Some "<html></html>") (mkRequest "GET" (Some "/"))) = 200
   /\ firstn 4 (headers (httpHandler (Some "<html></html>") (mkRequest "GET" (Some "/"))))
      = noCacheHeaders
   /\ body (httpHandler (Some "<html></html>") (mkRequest "GET" (Some "/")))
      = "<html></html>")
  /\ httpHandler (Some "<html></html>") (mkRequest "GET" (Some "/favicon.ico?v=2"))
     = mkResponse 404 [("Cache-Control", JStr "no-store")] "Not found".
Proof.
  split.
  - apply (http_routes (Some "<html></html>") (mkRequest "GET" (Some "/"))).
    left. reflexivity.
  - apply (http_routes (Some "<html></html>") (mkRequest "GET" (Some "/favicon.ico?v=2"))).
    split; discriminate.
Defined.

(** C9, as first stated, fails: the path [/client.html] is not ["/"], and
    it is answered 200 with the page. *)
Lemma client_html_path_is_served :
  ~ serves_root_only (Some "<html></html>").
Proof.
  intros H.
  assert (H404 := H (mkRequest "GET" (Some "/client.html"))).
  vm_compute in H404. assert (E : 200 = 404) by (apply H404; discriminate).
  discriminate E.
Qed.

End Runs.

(** ** Beyond the claims: the other listeners, sessions, helpers *)

Section Coverage.

Context {RT : JSRuntime} {AM : AutomergeLib}.

Lemma onConnection_run (st : ReadyState) (throws : bool) (w : World) :
  let ws := mkConn (nextClientId w) st throws in
  onConnection st throws w
  = (mkWorld (doc w) (snapshot w) (disk w) (clients w ++ [ws]) (S (nextClientId w)),
     [ELog (LConnected (nextClientId w) (List.length (clients w ++ [ws])));
      attempt (fullMessage (am_save (doc w))) ws;
      ELog (if throws || negb (convertible (qText (doc w)))
            then LInitialFailed (nextClientId w)
            else LInitialSent (nextClientId w) (qText (doc w)))],
     Normal ws).
Proof.
  unfold onConnection, try_catch, bind, get_doc, ws_send, ret, attempt, log_template.
  unfold log, emit, throw. cbn [forallb doc]. rewrite andb_true_r.
  destruct throws; simpl; destruct (convertible (qText (doc w))); reflexivity.
Qed.

(** Where a frame leaves the state: merged and persisted when it brings a
    document in and its [merge] log line can be formatted, merged only when
    that line raises, untouched otherwise. *)
Lemma onMessage_world (ws : Conn) (data : Data) (iso : string) (w : World) :
  exists tr,
    onMessage ws data iso w
    = match incoming_doc data with
      | Some inc =>
          if forallb convertible
               [qText inc; qText (doc w); qText (am_merge (doc w) inc)]
          then (after_persist (with_doc (am_merge (doc w) inc) w), tr, Normal tt)
          else (with_doc (am_merge (doc w) inc) w, tr, Throw)
      | None => (w, tr, Normal tt)
      end.
Proof.
  unfold incoming_doc.
  destruct (onMessage_cases data)
    as [Hp | [(msg & Hp & Hh) | [(msg & Hp & Hh & Hf) | [(msg & Hp & Hf & Hl)
       | (msg & inc & Hp & Hf & Hl)]]]]; rewrite Hp.
  - rewrite (onMessage_invalid_run ws data iso w Hp). eexists. reflexivity.
  - rewrite (onMessage_hello_run ws data iso w Hp Hh).
    destruct (is_str (type_of msg) "full") eqn:Hf;
      [rewrite (is_str_hello_full _ Hf) in Hh; discriminate|].
    eexists. reflexivity.
  - rewrite (onMessage_other_run ws data iso w Hp Hh Hf), Hf. eexists. reflexivity.
  - rewrite (onMessage_badload_run ws data iso w Hp Hf Hl), Hf, Hl. eexists. reflexivity.
  - rewrite Hf, Hl.
    destruct (forallb convertible
                [qText inc; qText (doc w); qText (am_merge (doc w) inc)]) eqn:Hc.
    + rewrite (onMessage_full_run ws data iso w Hp Hf Hl Hc). eexists. reflexivity.
    + rewrite (onMessage_full_raise ws data iso w Hp Hf Hl Hc). eexists. reflexivity.
Qed.

Lemma session_cons_run (m : M unit) (rest : list Step) (w w1 : World)
    (t1 : list Event) :
  m w = (w1, t1, Normal tt) ->
  (m ;; session rest) w
  = match session rest w1 with
    | (w2, t2, r) => (w2, t1 ++ t2, r)
    end.
Proof. intros H. unfold bind. now rewrite H. Qed.

Lemma session_cons_raise (m : M unit) (rest : list Step) (w w1 : World)
    (t1 : list Event) :
  m w = (w1, t1, Throw) ->
  (m ;; session rest) w = (w1, t1, Throw).
Proof. intros H. unfold bind. now rewrite H. Qed.

(** A session runs a prefix of its steps, all of them unless a listener
    raises; it folds the documents that prefix brought in into [doc], appends
    its newcomers to the registry and advances [nextClientId] by their
    number. *)
Lemma session_run (steps : list Step) :
  forall w, exists w' tr r prefix rest,
    session steps w = (w', tr, r)
    /\ steps = prefix ++ rest
    /\ (r = Normal tt -> rest = [])
    /\ doc w' = fold_left am_merge (incoming_docs prefix) (doc w)
    /\ clients w' = clients w ++ newcomers (nextClientId w) prefix
    /\ nextClientId w'
       = nextClientId w + List.length (newcomers (nextClientId w) prefix).
Proof.
  induction steps as [|[st throws | ws data iso] steps IH]; intros w.
  - exists w, [], (Normal tt), [], []. simpl. rewrite app_nil_r, Nat.add_0_r.
    repeat split; reflexivity.
  - simpl session. unfold bind. rewrite onConnection_run.
    match goal with |- context [session steps ?w1] =>
      destruct (IH w1) as (w' & tr & r & prefix & rest & Hrun & Hsplit & Hall
                           & Hdoc & Hcl & Hnx) end.
    rewrite Hrun. exists w'. eexists. exists r, (Connects st throws :: prefix), rest.
    split; [reflexivity|]. split; [simpl; now rewrite Hsplit|]. split; [exact Hall|].
    simpl in Hdoc, Hcl, Hnx. simpl. rewrite Hdoc, Hcl, Hnx, <- app_assoc.
    repeat split; simpl; try reflexivity; lia.
  - simpl session. destruct (onMessage_world ws data iso w) as (t1 & H1).
    destruct (incoming_doc data) as [inc|] eqn:Hinc.
    + destruct (forallb convertible
                  [qText inc; qText (doc w); qText (am_merge (doc w) inc)]).
      * rewrite (session_cons_run _ steps _ _ _ H1).
        match goal with |- context [session steps ?w1] =>
          destruct (IH w1) as (w' & tr & r & prefix & rest & Hrun & Hsplit & Hall
                               & Hdoc & Hcl & Hnx) end.
        rewrite Hrun. exists w'. eexists. exists r, (Receives ws data iso :: prefix), rest.
        split; [reflexivity|]. split; [simpl; now rewrite Hsplit|]. split; [exact Hall|].
        simpl incoming_docs. simpl newcomers. rewrite Hinc, Hdoc, Hcl, Hnx.
        repeat split; reflexivity.
      * rewrite (session_cons_raise _ steps _ _ _ H1).
        eexists _, _, _, [Receives ws data iso], steps.
        split; [reflexivity|]. split; [reflexivity|]. split; [discriminate|].
        simpl incoming_docs. simpl newcomers. rewrite Hinc. simpl.
        rewrite app_nil_r, Nat.add_0_r. repeat split; reflexivity.
    + rewrite (session_cons_run _ steps _ _ _ H1).
      destruct (IH w) as (w' & tr & r & prefix & rest & Hrun & Hsplit & Hall
                          & Hdoc & Hcl & Hnx).
      rewrite Hrun. exists w'. eexists. exists r, (Receives ws data iso :: prefix), rest.
      split; [reflexivity|]. split; [simpl; now rewrite Hsplit|]. split; [exact Hall|].
      simpl incoming_docs. simpl newcomers. rewrite Hinc, Hdoc, Hcl, Hnx.
      repeat split; reflexivity.
Qed.

(** A session that ends normally ran all its steps. *)
Lemma session_normal_run (steps : list Step) (w w' : World) (tr : list Event) :
  session steps w = (w', tr, Normal tt) ->
  doc w' = fold_left am_merge (incoming_docs steps) (doc w).
Proof.
  intros H.
  destruct (session_run steps w)
    as (w1 & tr1 & r & prefix & rest & Hrun & Hsplit & Hall & Hdoc & _).
  rewrite H in Hrun. injection Hrun as <- <- <-.
  rewrite (Hall eq_refl), app_nil_r in Hsplit. now subst prefix.
Qed.

Lemma take_until_In {A : Type} (p : A -> bool) (l : list A) (x : A) :
  In x (take_until p l) -> In x l.
Proof.
  induction l as [|a l IH]; simpl; [tauto|].
  destruct (p a); simpl; intros [H | H]; auto. destruct H.
Qed.

Lemma in_echo_trace (ws : Conn) (data : Data) (to : nat) (m : JSON) (ok : bool) :
  In (ESend to m ok) (echo_trace ws data) -> to = conn_id ws.
Proof.
  unfold echo_trace, attempt. simpl.
  intros [H | [H | H]]; try discriminate H.
  - now injection H as <- _ _.
  - destruct (send_throws ws); simpl in H; [destruct H as [H | H]|]; try discriminate H;
      destruct H.
Qed.

(** X1: A frame whose [type] is neither ["hello"] nor ["full"] (a [ping], a
    [debug_echo], a missing or non-string [type], other spellings) is logged
    and ignored: the state is left as it was and nothing but the
    [debug_echo] is sent. *)
Theorem other_types_ignored (ws : Conn) (data : Data) (iso : string) (w : World)
    (msg : JSON) :
  JSON_parse (text_of data) = Some msg ->
  is_str (type_of msg) "hello" = false ->
  is_str (type_of msg) "full" = false ->
  exists tr,
    onMessage ws data iso w = (w, tr, Normal tt)
    /\ effects tr = [attempt (debugEcho (String.length (text_of data))) ws]
    /\ In (ELog (LIgnoring (conn_id ws) (type_of msg))) tr.
Proof.
  intros Hp Hh Hf. rewrite (onMessage_other_run ws data iso w Hp Hh Hf).
  eexists. split; [reflexivity|]. split.
  - rewrite effects_app, effects_echo. reflexivity.
  - apply in_or_app. right. now left.
Qed.

(** X2: A frame that parses to something other than an object ([null], a
    boolean, a number, a string, an array) has no [type] and is ignored like
    an unknown type: [msg || {}] and the destructuring never throw, although
    destructuring [null] itself raises. *)
Theorem non_object_frames_ignored (ws : Conn) (data : Data) (iso : string)
    (w : World) (msg : JSON) :
  JSON_parse (text_of data) = Some msg ->
  (forall fields, msg <> JObj fields) ->
  (exists tr,
     onMessage ws data iso w = (w, tr, Normal tt)
     /\ effects tr = [attempt (debugEcho (String.length (text_of data))) ws]
     /\ In (ELog (LIgnoring (conn_id ws) None)) tr)
  /\ destructure (or_empty_object msg) = Some (None, None)
  /\ destructure JNull = None.
Proof.
  intros Hp Hno.
  assert (Ht : type_of msg = None).
  { unfold type_of.
    destruct msg as [|[|]|[|n|n]|[|c s]|l|fields]; try reflexivity.
    now destruct (Hno fields). }
  assert (Hh : is_str (type_of msg) "hello" = false) by now rewrite Ht.
  assert (Hf : is_str (type_of msg) "full" = false) by now rewrite Ht.
  assert (Hpl : payload_of msg = None).
  { unfold payload_of.
    destruct msg as [|[|]|[|n|n]|[|c s]|l|fields]; try reflexivity.
    now destruct (Hno fields). }
  split; [|split; [now rewrite destructure_or_empty_object, Ht, Hpl | reflexivity]].
  rewrite (onMessage_other_run ws data iso w Hp Hh Hf), Ht.
  eexists. split; [reflexivity|]. split.
  - rewrite effects_app, effects_echo. reflexivity.
  - apply in_or_app. right. now left.
Qed.

(** X3: Whatever the frame, the listener leaves the registry and the id
    counter alone, and every message it sends goes either to the sender or,
    as the [full] message holding the document the run ends with, to an open
    socket of the registry.  A socket that is not open and is not the sender
    is sent nothing. *)
Theorem frames_go_to_sender_or_open_clients (ws : Conn) (data : Data)
    (iso : string) (w : World) :
  let run := onMessage ws data iso w in
  clients (world_of run) = clients w
  /\ nextClientId (world_of run) = nextClientId w
  /\ forall to m ok, In (ESend to m ok) (trace_of run) ->
       to = conn_id ws
       \/ exists c, In c (clients w) /\ is_open c = true /\ conn_id c = to
                    /\ m = fullMessage (am_save (doc (world_of run))).
Proof.
  intros run. subst run.
  destruct (onMessage_cases data)
    as [Hp | [(msg & Hp & Hh) | [(msg & Hp & Hh & Hf) | [(msg & Hp & Hf & Hl)
       | (msg & inc & Hp & Hf & Hl)]]]].
  - rewrite (onMessage_invalid_run ws data iso w Hp). unfold world_of, trace_of.
    cbn [fst snd]. repeat split. intros to m ok Hin. left.
    apply in_app_or in Hin. destruct Hin as [Hin | [Hin | []]];
      [now apply in_echo_trace in Hin | discriminate Hin].
  - rewrite (onMessage_hello_run ws data iso w Hp Hh). unfold world_of, trace_of.
    cbn [fst snd]. repeat split. intros to m ok Hin. left.
    apply in_app_or in Hin. destruct Hin as [Hin | [Hin | [Hin | []]]];
      [now apply in_echo_trace in Hin | | discriminate Hin].
    unfold attempt in Hin. now injection Hin as <- _ _.
  - rewrite (onMessage_other_run ws data iso w Hp Hh Hf). unfold world_of, trace_of.
    cbn [fst snd]. repeat split. intros to m ok Hin. left.
    apply in_app_or in Hin. destruct Hin as [Hin | [Hin | []]];
      [now apply in_echo_trace in Hin | discriminate Hin].
  - rewrite (onMessage_badload_run ws data iso w Hp Hf Hl). unfold world_of, trace_of.
    cbn [fst snd]. repeat split. intros to m ok Hin. left.
    apply in_app_or in Hin. destruct Hin as [Hin | [Hin | []]];
      [now apply in_echo_trace in Hin | discriminate Hin].
  - destruct (forallb convertible
                [qText inc; qText (doc w); qText (am_merge (doc w) inc)]) eqn:Hcv;
      [|rewrite (onMessage_full_raise ws data iso w Hp Hf Hl Hcv);
        unfold world_of, trace_of; cbn [fst snd]; repeat split;
        intros to m ok Hin; left; now apply in_echo_trace in Hin].
    rewrite (onMessage_full_run ws data iso w Hp Hf Hl Hcv). unfold world_of, trace_of.
    cbn [fst snd]. repeat split. intros to m ok Hin.
    apply in_app_or in Hin. destruct Hin as [Hin | Hin];
      [left; now apply in_echo_trace in Hin|].
    apply in_app_or in Hin. destruct Hin as [Hin | Hin].
    + left. simpl in Hin.
      destruct Hin as [Hin | [Hin | [Hin | [Hin | [Hin | []]]]]]; try discriminate Hin.
      unfold attempt in Hin. now injection Hin as <- _ _.
    + apply in_app_or in Hin. destruct Hin as [Hin | [Hin | []]]; [|discriminate Hin].
      right. apply in_map_iff in Hin. destruct Hin as (c & Hc & Hin).
      apply take_until_In in Hin. apply filter_In in Hin. destruct Hin as [Hin Hopen].
      unfold attempt in Hc. injection Hc as <- <- _.
      exists c. repeat split; assumption.
Qed.

(** X4: Over any session of connections and frames, the listeners run a
    prefix of the steps, all of them unless one raises, and the document the
    server is left with is the one it began with, merged in order of receipt
    with every document a [full] frame of that prefix brought in and Automerge
    loaded; no other frame changes it.  The registry grows by the newcomers of
    the prefix only and [nextClientId] by their number. *)
Theorem document_folds_incoming_merges (steps : list Step) (w : World) :
  exists w' tr r prefix rest,
    session steps w = (w', tr, r)
    /\ steps = prefix ++ rest
    /\ (r = Normal tt -> rest = [])
    /\ doc w' = fold_left am_merge (incoming_docs prefix) (doc w)
    /\ clients w' = clients w ++ newcomers (nextClientId w) prefix
    /\ nextClientId w'
       = nextClientId w + List.length (newcomers (nextClientId w) prefix).
Proof. apply session_run. Qed.

(** X5: A [hello] that follows a session which ended without a listener
    raising is answered with [{type: "full", payload: s}], [s] being the
    serialization of the document the session arrived at: the fold of the
    merges. *)
Theorem hello_after_session_gets_fold (steps : list Step) (w w' : World)
    (tr : list Event) (ws : Conn) (data : Data) (iso : string) (msg : JSON) :
  session steps w = (w', tr, Normal tt) ->
  JSON_parse (text_of data) = Some msg ->
  is_str (type_of msg) "hello" = true ->
  exists tr',
    onMessage ws data iso w' = (w', tr', Normal tt)
    /\ filter (is_send_of "full") tr'
       = [ESend (conn_id ws)
                (JObj [("type", JStr "full");
                       ("payload",
                        JStr (am_save (fold_left am_merge (incoming_docs steps) (doc w))))])
                (negb (send_throws ws))].
Proof.
  intros Hrun Hp Hh.
  rewrite (onMessage_hello_run ws data iso w' Hp Hh), <- (session_normal_run _ _ _ _ Hrun).
  eexists. split; [reflexivity|].
  rewrite filter_app, sends_of_echo. reflexivity.
Qed.

Lemma session_disk_sync (steps : list Step) :
  forall w w' tr,
    session steps w = (w', tr, Normal tt) ->
    disk w = [] ->
    disk w' = []
    /\ (snapshot_in_sync w \/ incoming_docs steps <> [] -> snapshot_in_sync w').
Proof.
  induction steps as [|[st throws | ws data iso] steps IH]; intros w w' tr Hrun Hd.
  - simpl in Hrun. injection Hrun as <- _. split; [exact Hd|].
    intros [H | H]; [exact H | now destruct H].
  - simpl session in Hrun. unfold bind in Hrun. rewrite onConnection_run in Hrun.
    match type of Hrun with context [session steps ?w1] =>
      destruct (session steps w1) as [[w2 t2] r] eqn:Hrest end.
    injection Hrun as -> _ ->.
    destruct (IH _ _ _ Hrest Hd) as [Hdisk Hsync].
    split; [exact Hdisk|]. intros H. apply Hsync. exact H.
  - simpl session in Hrun. destruct (onMessage_world ws data iso w) as (t1 & H1).
    simpl incoming_docs.
    destruct (incoming_doc data) as [inc|].
    + destruct (forallb convertible
                  [qText inc; qText (doc w); qText (am_merge (doc w) inc)]).
      * rewrite (session_cons_run _ steps _ _ _ H1) in Hrun.
        match type of Hrun with context [session steps ?w1] =>
          destruct (session steps w1) as [[w2 t2] r] eqn:Hrest end.
        injection Hrun as -> _ ->.
        assert (Hd1 : disk (after_persist (with_doc (am_merge (doc w) inc) w)) = [])
          by (unfold after_persist, with_doc; simpl; now rewrite Hd).
        destruct (IH _ _ _ Hrest Hd1) as [Hdisk Hsync].
        split; [exact Hdisk|].
        intros _. apply Hsync. left.
        unfold snapshot_in_sync, after_persist, with_doc. simpl. now rewrite Hd.
      * rewrite (session_cons_raise _ steps _ _ _ H1) in Hrun. discriminate Hrun.
    + rewrite (session_cons_run _ steps _ _ _ H1) in Hrun.
      destruct (session steps w) as [[w2 t2] r] eqn:Hrest.
      injection Hrun as -> _ ->.
      destruct (IH _ _ _ Hrest Hd) as [Hdisk Hsync].
      split; [exact Hdisk|]. exact Hsync.
Qed.

(** X6: While the disk accepts the writes and no listener raises,
    [manifest.json] keeps up with the document: if it held
    [JSON.stringify(doc, null, 2)] before a session, or the session brought at
    least one document in, it holds [JSON.stringify(doc, null, 2)] of the
    final document after it. *)
Theorem snapshot_in_sync_after_session (steps : list Step) (w w' : World)
    (tr : list Event) :
  session steps w = (w', tr, Normal tt) ->
  disk w = [] ->
  snapshot_in_sync w \/ incoming_docs steps <> [] ->
  snapshot_in_sync w'.
Proof. intros Hrun Hd H. now apply (session_disk_sync steps w w' tr Hrun Hd). Qed.

(** X7: On connection the new socket gets the next id, the counter moves on
    by one, and the socket is sent one message [{type: "full", payload: s}],
    [s] being the serialization of the current document; the document and the
    snapshot are not touched, and a [send] that throws is caught. *)
Theorem connect_gets_current_full (st : ReadyState) (throws : bool) (w : World) :
  let ws := mkConn (nextClientId w) st throws in
  exists w' tr,
    onConnection st throws w = (w', tr, Normal ws)
    /\ doc w' = doc w /\ snapshot w' = snapshot w
    /\ clients w' = clients w ++ [ws]
    /\ nextClientId w' = S (nextClientId w)
    /\ effects tr
       = [ESend (nextClientId w)
                (JObj [("type", JStr "full"); ("payload", JStr (am_save (doc w)))])
                (negb throws)].
Proof.
  intros ws. rewrite onConnection_run. eexists _, _.
  split; [reflexivity|]. repeat split.
Qed.

Lemma sorted_app (l1 l2 : list nat) :
  StronglySorted lt l1 -> StronglySorted lt l2 ->
  (forall a b, In a l1 -> In b l2 -> a < b) ->
  StronglySorted lt (l1 ++ l2).
Proof.
  induction l1 as [|x l1 IH]; simpl; intros H1 H2 H; [exact H2|].
  inversion H1 as [|? ? Hs Hf]; subst. constructor.
  - apply IH; auto.
  - apply Forall_app. split; [exact Hf|].
    apply Forall_forall. intros b Hb. apply H; auto.
Qed.

Lemma sorted_seq (len start : nat) : StronglySorted lt (seq start len).
Proof.
  revert start. induction len as [|len IH]; intros start; simpl; constructor.
  - apply IH.
  - apply Forall_forall. intros b Hb. apply in_seq in Hb. lia.
Qed.

Lemma newcomers_ids (steps : list Step) :
  forall next, map conn_id (newcomers next steps)
               = seq next (List.length (newcomers next steps)).
Proof.
  induction steps as [|[st throws | ws data iso] rest IH]; intros next; simpl.
  - reflexivity.
  - now rewrite IH.
  - apply IH.
Qed.

(** X8: Client ids are handed out in increasing order and never reused: if
    the registry lists its sockets by increasing id, all below
    [nextClientId], it still does after any session. *)
Theorem ids_stay_in_order (steps : list Step) (w : World) :
  ids_in_order w -> ids_in_order (world_of (session steps w)).
Proof.
  intros [Hs Hb].
  destruct (session_run steps w)
    as (w' & tr & r & prefix & rest & Hrun & _ & _ & _ & Hcl & Hnx).
  rewrite Hrun. unfold world_of, ids_in_order. cbn [fst snd].
  rewrite Hcl, Hnx, map_app, newcomers_ids.
  assert (Hlt : forall a, In a (map conn_id (clients w)) -> a < nextClientId w).
  { intros a Ha. apply in_map_iff in Ha. destruct Ha as (c & <- & Hc).
    revert c Hc. now apply Forall_forall. }
  split.
  - apply sorted_app; [exact Hs | apply sorted_seq |].
    intros a b Ha Hin. apply in_seq in Hin. specialize (Hlt a Ha). lia.
  - apply Forall_app. split.
    + apply Forall_forall. intros c Hc.
      assert (conn_id c < nextClientId w) by (apply Hlt; now apply in_map). lia.
    + apply Forall_forall. intros c Hc.
      assert (Hid : In (conn_id c) (map conn_id (newcomers (nextClientId w) prefix)))
        by now apply in_map.
      rewrite newcomers_ids in Hid. apply in_seq in Hid. lia.
Qed.

(** [loadInitial] on its three ways: a usable manifest, an unusable one,
    none. *)
Lemma loadInitial_boot (snap : option string) (dk : list WriteOutcome) :
  exists tr w0 seed,
    loadInitial snap dk = (tr, Some w0)
    /\ clients w0 = [] /\ nextClientId w0 = 1
    /\ am_from seed = Some (doc w0)
    /\ (seed = emptyShape
        \/ exists text, snap = Some text /\ JSON_parse text = Some seed).
Proof.
  destruct (am_from emptyShape) as [d0|] eqn:Hs; [|now destruct am_from_emptyShape].
  assert (Hseed : forall pre, exists tr w0,
            seed_empty pre snap dk = (tr, Some w0)
            /\ clients w0 = [] /\ nextClientId w0 = 1 /\ doc w0 = d0).
  { intros pre. unfold seed_empty. rewrite Hs, persistJson_run.
    eexists _, _. repeat split. }
  unfold loadInitial. destruct snap as [text|].
  - destruct (JSON_parse text) as [seed|] eqn:Hp.
    + destruct (am_from seed) as [d|] eqn:Hf.
      * destruct (convertible (qText d)).
        -- eexists _, _, seed. split; [reflexivity|]. repeat split; [exact Hf|].
           right. now exists text.
        -- destruct (Hseed [ELog LLoadFound; ELog LLoadParseError])
             as (tr & w0 & Hrun & Hc & Hn & Hd).
           exists tr, w0, emptyShape. rewrite Hd. repeat split; auto.
      * destruct (Hseed [ELog LLoadFound; ELog LLoadParseError])
          as (tr & w0 & Hrun & Hc & Hn & Hd).
        exists tr, w0, emptyShape. rewrite Hd. repeat split; auto.
    + destruct (Hseed [ELog LLoadFound; ELog LLoadParseError])
        as (tr & w0 & Hrun & Hc & Hn & Hd).
      exists tr, w0, emptyShape. rewrite Hd. repeat split; auto.
  - destruct (Hseed [ELog LLoadNoFile]) as (tr & w0 & Hrun & Hc & Hn & Hd).
    exists tr, w0, emptyShape. rewrite Hd. repeat split; auto.
Qed.

(** X9: Startup never fails, whatever [manifest.json] holds and whatever
    the disk does: [loadInitial] returns with nobody connected, the id
    counter at 1, and a document that Automerge built either from the seed
    parsed out of the manifest or from the skeleton. *)
Theorem startup_always_succeeds (snap : option string) (dk : list WriteOutcome) :
  exists tr w0 seed,
    loadInitial snap dk = (tr, Some w0)
    /\ clients w0 = [] /\ nextClientId w0 = 1
    /\ am_from seed = Some (doc w0)
    /\ (seed = emptyShape
        \/ exists text, snap = Some text /\ JSON_parse text = Some seed).
Proof. apply loadInitial_boot. Qed.

(** X10: The first client to connect after startup is client 1, becomes
    the only entry of the registry, and is sent [{type: "full", payload: s}],
    [s] being the serialization of the document startup produced. *)
Theorem first_client_gets_startup_document (snap : option string)
    (dk : list WriteOutcome) (st : ReadyState) (throws : bool) :
  let ws := mkConn 1 st throws in
  exists tr0 w0 w1 tr1,
    loadInitial snap dk = (tr0, Some w0)
    /\ onConnection st throws w0 = (w1, tr1, Normal ws)
    /\ clients w1 = [ws]
    /\ effects tr1
       = [ESend 1 (JObj [("type", JStr "full"); ("payload", JStr (am_save (doc w0)))])
                (negb throws)].
Proof.
  intros ws.
  destruct (loadInitial_boot snap dk) as (tr0 & w0 & seed & Hrun & Hc & Hn & _).
  exists tr0, w0. rewrite onConnection_run, Hc, Hn. fold ws.
  eexists _, _. split; [exact Hrun|]. split; [reflexivity|]. split; reflexivity.
Qed.

(** X11: A manifest that parses to a seed Automerge accepts, and whose
    document has a question text that the [loaded] log line can format, is
    loaded as it is: the document is the one built from the seed, nothing is
    written, and the file and the disk are left untouched. *)
Theorem valid_manifest_loaded_unwritten (text : string) (seed : JSON) (d : Doc)
    (dk : list WriteOutcome) :
  JSON_parse text = Some seed ->
  am_from seed = Some d ->
  convertible (qText d) = true ->
  exists tr,
    loadInitial (Some text) dk = (tr, Some (boot d (Some text) dk))
    /\ effects tr = [].
Proof.
  intros Hp Hf Hc. unfold loadInitial. rewrite Hp, Hf, Hc.
  eexists. split; reflexivity.
Qed.

(** X12: Persist, then restart: when the write goes through, the runtime
    reads back what it printed, Automerge rebuilds [d] from the plain view of
    the document and the [loaded] log line can format the question text of
    [d], a restart on the file [persistJson] left loads [d] without writing. *)
Theorem restart_reloads_persisted (w : World) (d : Doc) (dk : list WriteOutcome) :
  write_ok (disk w) = true ->
  JSON_parse (JSON_stringify2 (am_view (doc w))) = Some (am_view (doc w)) ->
  am_from (am_view (doc w)) = Some d ->
  convertible (qText d) = true ->
  exists w1 t1 tr,
    persistJson w = (w1, t1, Normal tt)
    /\ loadInitial (snapshot w1) dk = (tr, Some (boot d (snapshot w1) dk))
    /\ effects tr = [].
Proof.
  intros Hok Hrt Hf Hc. rewrite persistJson_run.
  eexists _, _, _. split; [reflexivity|].
  unfold after_persist. cbn [snapshot]. rewrite (written_ok _ _ Hok).
  unfold loadInitial. rewrite Hrt, Hf, Hc. split; reflexivity.
Qed.

(** X20: A [full] frame that Automerge loads but whose [merge] log line
    cannot be formatted (the question text of the incoming, the previous or
    the merged document has no string conversion) makes the listener raise
    once the document is replaced by the merge: nothing is written, and
    nothing but the [debug_echo] is sent. *)
Theorem full_frame_raises_at_merge_log (ws : Conn) (data : Data) (iso : string)
    (w : World) (msg : JSON) (inc : Doc) :
  JSON_parse (text_of data) = Some msg ->
  is_str (type_of msg) "full" = true ->
  am_load (payload_of msg) = Some inc ->
  let d' := am_merge (doc w) inc in
  forallb convertible [qText inc; qText (doc w); qText d'] = false ->
  exists w' tr,
    onMessage ws data iso w = (w', tr, Throw)
    /\ doc w' = d'
    /\ snapshot w' = snapshot w /\ disk w' = disk w
    /\ effects tr
       = [ESend (conn_id ws)
                (JObj [("type", JStr "debug_echo");
                       ("bytes", JNum (Z.of_nat (String.length (text_of data))))])
                (negb (send_throws ws))].
Proof.
  intros Hp Hf Hl d' Hc. rewrite (onMessage_full_raise ws data iso w Hp Hf Hl Hc).
  eexists _, _. split; [reflexivity|]. repeat split. apply effects_echo.
Qed.

(** X21: A manifest that parses to a seed Automerge accepts, but whose
    document has a question text that the [loaded] log line cannot format, is
    given up: the [catch] seeds the skeleton and tries at once to write it
    over the manifest. *)
Theorem unformattable_manifest_replaced (text : string) (seed : JSON) (d : Doc)
    (dk : list WriteOutcome) :
  JSON_parse text = Some seed ->
  am_from seed = Some d ->
  convertible (qText d) = false ->
  exists d0 w tr,
    am_from emptyShape = Some d0
    /\ loadInitial (Some text) dk = (tr, Some w)
    /\ doc w = d0
    /\ effects tr = [EWrite (JSON_stringify2 (am_view d0)) (write_ok dk)]
    /\ snapshot w = written (JSON_stringify2 (am_view d0)) dk.
Proof.
  intros Hp Hf Hc.
  destruct (am_from emptyShape) as [d0|] eqn:Hs; [|now destruct am_from_emptyShape].
  exists d0. unfold loadInitial. rewrite Hp, Hf, Hc.
  unfold seed_empty. rewrite Hs, persistJson_run.
  eexists _, _. split; [reflexivity|]. split; [reflexivity|].
  split; [reflexivity|]. split; reflexivity.
Qed.

(** A ping tick sends one [ping] carrying [t] when the socket is open
    and does nothing otherwise; it never touches the state.  The tick has no
    [try]: when [send] throws on an open socket the exception leaves the
    timer callback. *)
Theorem ping_only_when_open (ws : Conn) (t : Z) (w : World) :
  (is_open ws = false -> onPingTick ws t w = (w, [], Normal tt))
  /\ (is_open ws = true ->
      onPingTick ws t w
      = (w, [attempt (pingMessage t) ws],
         if send_throws ws then Throw else Normal tt)).
Proof.
  unfold onPingTick, ws_send, attempt, ret.
  split; intros ->; [reflexivity|]. now destruct (send_throws ws).
Qed.

Lemma before_qmark_query (u q : string) :
  has "?" u = false -> before_qmark (u ++ String "?" q)%string = u.
Proof.
  induction u as [|a u IH]; simpl; [reflexivity|].
  destruct (Ascii.eqb a "?"); simpl; [discriminate|].
  intros H. now rewrite IH.
Qed.

Lemma before_qmark_plain (u : string) :
  has "?" u = false -> before_qmark u = u.
Proof.
  induction u as [|a u IH]; simpl; [reflexivity|].
  destruct (Ascii.eqb a "?"); simpl; [discriminate|].
  intros H. now rewrite IH.
Qed.

Lemma pathname_query (u q : string) :
  u <> EmptyString -> has "?" u = false ->
  pathname (Some (u ++ String "?" q)%string) = u.
Proof.
  intros Hne Hq. unfold pathname.
  destruct u as [|a u]; [now destruct Hne|].
  change (before_qmark (String a u ++ String "?" q) = String a u).
  now apply before_qmark_query.
Qed.

Lemma pathname_plain (u : string) :
  u <> EmptyString -> has "?" u = false -> pathname (Some u) = u.
Proof.
  intros Hne Hq. unfold pathname.
  destruct u as [|a u]; [now destruct Hne|].
  now apply before_qmark_plain.
Qed.

(** X13: The query string plays no part in routing: a URL with a query is
    answered exactly as the same URL without it. *)
Theorem query_string_ignored (client_html : option string) (method u q : string) :
  u <> EmptyString ->
  has "?" u = false ->
  httpHandler client_html (mkRequest method (Some (u ++ String "?" q)%string))
  = httpHandler client_html (mkRequest method (Some u)).
Proof.
  intros Hne Hq. unfold httpHandler. cbn [req_url].
  now rewrite (pathname_query u q Hne Hq), (pathname_plain u Hne Hq).
Qed.

(** X14: Every response, the page and the not-found one alike, carries a
    [Cache-Control] header that starts with [no-store]. *)
Theorem responses_forbid_caching (client_html : option string) (req : Request) :
  exists v,
    lookup "Cache-Control" (headers (httpHandler client_html req)) = Some (JStr v)
    /\ String.prefix "no-store" v = true.
Proof.
  unfold httpHandler.
  destruct (String.eqb (pathname (req_url req)) "/"
            || String.eqb (pathname (req_url req)) "/client.html")%bool.
  - destruct client_html; eexists; split; reflexivity.
  - eexists; split; reflexivity.
Qed.

Lemma after_first_app (c : ascii) (d rest : string) :
  has c d = false -> after_first c (d ++ String c rest)%string = Some rest.
Proof.
  induction d as [|a d IH]; simpl.
  - now rewrite Ascii.eqb_refl.
  - destruct (Ascii.eqb a c); simpl; [discriminate | exact IH].
Qed.

Lemma after_first_none (c : ascii) (s : string) :
  has c s = false -> after_first c s = None.
Proof.
  induction s as [|a s IH]; simpl; [reflexivity|].
  destruct (Ascii.eqb a c); simpl; [discriminate | exact IH].
Qed.

Lemma upto_app_other (c z : ascii) (t : string) :
  has c t = false -> Ascii.eqb z c = false ->
  upto c (t ++ String z EmptyString)%string = (t ++ String z EmptyString)%string.
Proof.
  intros Ht Hz. induction t as [|a t IH]; simpl in *.
  - now rewrite Hz.
  - destruct (Ascii.eqb a c); simpl in *; [discriminate|]. now rewrite IH.
Qed.

Lemma remove_first_last (z : ascii) (t : string) :
  has z t = false -> remove_first z (t ++ String z EmptyString)%string = t.
Proof.
  induction t as [|a t IH]; simpl.
  - now rewrite Ascii.eqb_refl.
  - destruct (Ascii.eqb a z); simpl; [discriminate|]. intros H. now rewrite IH.
Qed.

(** X15: On an ISO time stamp, a date, [T], a time of day and [Z], [ts]
    gives the time of day; on a string without [T] it throws. *)
Theorem ts_is_time_of_day (date time : string) :
  has "T" date = false ->
  has "T" time = false ->
  has "Z" time = false ->
  ts_of (date ++ String "T" (time ++ "Z"))%string = Some time
  /\ ts_of date = None.
Proof.
  intros Hd Ht Hz. unfold ts_of. split.
  - rewrite (after_first_app "T" date _ Hd).
    rewrite (upto_app_other "T" "Z" time Ht eq_refl).
    now rewrite (remove_first_last "Z" time Hz).
  - now rewrite (after_first_none "T" date Hd).
Qed.

Lemma escape_newlines_clean (s : string) :
  has (ascii_of_nat 10) (escape_newlines s) = false.
Proof.
  induction s as [|a s IH]; simpl; [reflexivity|].
  destruct (Ascii.eqb a (ascii_of_nat 10)) eqn:E; simpl.
  - exact IH.
  - now rewrite E.
Qed.

Lemma escape_newlines_length (s : string) :
  String.length (escape_newlines s) <= 2 * String.length s.
Proof.
  induction s as [|a s IH]; simpl; [lia|].
  destruct (Ascii.eqb a (ascii_of_nat 10)); simpl; lia.
Qed.

Lemma escape_newlines_plain (s : string) :
  has (ascii_of_nat 10) s = false -> escape_newlines s = s.
Proof.
  induction s as [|a s IH]; simpl; [reflexivity|].
  destruct (Ascii.eqb a (ascii_of_nat 10)); simpl; [discriminate|].
  intros H. now rewrite IH.
Qed.

Lemma substring_length_le (n : nat) (s : string) :
  String.length (substring 0 n s) <= n.
Proof.
  revert s. induction n as [|n IH]; intros [|a s]; simpl; try lia.
  specialize (IH s). lia.
Qed.

Lemma substring_whole (n : nat) (s : string) :
  String.length s <= n -> substring 0 n s = s.
Proof.
  revert s. induction n as [|n IH]; intros [|a s]; simpl; try reflexivity; try lia.
  intros H. rewrite IH; [reflexivity | lia].
Qed.

(** X16: The excerpt of a frame in the receive log line is a single line
    of at most 240 characters, and a frame of at most 120 characters without
    a line feed is shown whole. *)
Theorem peek_single_line_bounded (text : string) :
  has (ascii_of_nat 10) (peek text) = false
  /\ String.length (peek text) <= 240
  /\ (String.length text <= 120 -> has (ascii_of_nat 10) text = false ->
      peek text = text).
Proof.
  unfold peek. split; [apply escape_newlines_clean|]. split.
  - pose proof (escape_newlines_length (substring 0 120 text)).
    pose proof (substring_length_le 120 text). lia.
  - intros Hlen Hlf. rewrite (substring_whole 120 text Hlen).
    now apply escape_newlines_plain.
Qed.

(** X17: [qText] never yields [null]: a document without [pages], with
    [pages] null or with no first page reads as ["(missing)"]. *)
Theorem qText_without_first_page (d : Doc) :
  qText d <> JNull
  /\ forall fields,
       am_view d = JObj fields ->
       lookup "pages" fields = None
       \/ lookup "pages" fields = Some JNull
       \/ lookup "pages" fields = Some (JArr []) ->
       qText d = JStr "(missing)".
Proof.
  unfold qText, qText_of. split.
  - destruct (questionText_path (Some (am_view d))) as [[]|]; discriminate.
  - intros fields Hv H. rewrite Hv. unfold questionText_path.
    cbn [opt_field get_field].
    destruct H as [-> | [-> | ->]]; reflexivity.
Qed.

(** X18: A client the broadcast did not reach can catch up: the [hello]
    that follows a merged [full] frame is answered with the very message the
    broadcast carried, [{type: "full", payload: s}] with [s] the
    serialization of the merged document. *)
Theorem hello_catches_up_with_broadcast (ws1 ws2 : Conn) (data1 data2 : Data)
    (iso1 iso2 : string) (w : World) (msg1 msg2 : JSON) (inc : Doc) :
  JSON_parse (text_of data1) = Some msg1 ->
  is_str (type_of msg1) "full" = true ->
  am_load (payload_of msg1) = Some inc ->
  forallb convertible [qText inc; qText (doc w); qText (am_merge (doc w) inc)] = true ->
  JSON_parse (text_of data2) = Some msg2 ->
  is_str (type_of msg2) "hello" = true ->
  let merged :=
    JObj [("type", JStr "full"); ("payload", JStr (am_save (am_merge (doc w) inc)))] in
  exists w' tr tr',
    onMessage ws1 data1 iso1 w = (w', tr, Normal tt)
    /\ onMessage ws2 data2 iso2 w' = (w', tr', Normal tt)
    /\ (forall e, In e (filter (is_send_of "full") tr) ->
          exists c, In c (clients w) /\ is_open c = true
                    /\ e = ESend (conn_id c) merged (negb (send_throws c)))
    /\ filter (is_send_of "full") tr'
       = [ESend (conn_id ws2) merged (negb (send_throws ws2))].
Proof.
  intros Hp1 Hf1 Hl1 Hc Hp2 Hh2 merged.
  rewrite (onMessage_full_run ws1 data1 iso1 w Hp1 Hf1 Hl1 Hc).
  eexists _, _, _. split; [reflexivity|].
  rewrite (onMessage_hello_run ws2 data2 iso2 _ Hp2 Hh2).
  split; [reflexivity|]. split.
  - intros e He.
    rewrite !filter_app, sends_of_echo, sends_of_attempts in He.
    simpl in He. rewrite app_nil_r in He.
    apply in_map_iff in He. destruct He as (c & <- & Hc').
    apply take_until_In in Hc'. apply filter_In in Hc'. destruct Hc' as [Hin Hopen].
    exists c. repeat split; assumption.
  - rewrite filter_app, sends_of_echo. reflexivity.
Qed.

End Coverage.

(** ** Sample runs of the other listeners and of sessions *)

Module MoreRuns.

Import Sample Scenario Poison.

Lemma other_types_ignored_witness :
  exists tr,
    onMessage alice pingFrame noon quiet = (quiet, tr, Normal tt)
    /\ effects tr = [ESend 1 (debugEcho (String.length (text_of pingFrame))) true]
    /\ In (ELog (LIgnoring 1 (Some (JStr "ping")))) tr.
Proof.
  apply (other_types_ignored alice pingFrame noon quiet
           (JObj [("type", JStr "ping"); ("t", JNum 1)])); reflexivity.
Defined.

Lemma non_object_frames_ignored_witness :
  exists tr,
    onMessage alice nullFrame noon quiet = (quiet, tr, Normal tt)
    /\ effects tr = [ESend 1 (debugEcho 4) true]
    /\ In (ELog (LIgnoring 1 None)) tr.
Proof.
  apply (non_object_frames_ignored alice nullFrame noon quiet JNull).
  - reflexivity.
  - intros fields. discriminate.
Defined.

Lemma hello_after_session_gets_fold_witness :
  exists tr',
    onMessage bob helloFrame noon (world_of (session morning booted))
    = (world_of (session morning booted), tr', Normal tt)
    /\ filter (is_send_of "full") tr'
       = [ESend 3 (JObj [("type", JStr "full");
                         ("payload",
                          JStr (Mini.stringify2 0
                                  (am_merge emptyShape (JObj [("field", JStr "x")]))))])
                true].
Proof.
  exact (hello_after_session_gets_fold morning booted
           (world_of (session morning booted)) (trace_of (session morning booted))
           bob helloFrame noon (JObj [("type", JStr "hello")])
           eq_refl eq_refl eq_refl).
Defined.

Lemma snapshot_in_sync_after_session_witness :
  snapshot_in_sync (world_of (session morning booted)).
Proof.
  apply (snapshot_in_sync_after_session morning booted
           (world_of (session morning booted)) (trace_of (session morning booted))).
  - reflexivity.
  - reflexivity.
  - left. reflexivity.
Defined.

Lemma ids_stay_in_order_witness :
  ids_in_order (world_of (session morning booted)).
Proof.
  apply (ids_stay_in_order morning booted).
  split; constructor.
Defined.

Lemma valid_manifest_loaded_unwritten_witness :
  exists tr,
    loadInitial (Some (Mini.stringify2 0 emptyShape)) [WriteFails None]
    = (tr, Some (boot (AM := PlainDocs) emptyShape
                      (Some (Mini.stringify2 0 emptyShape)) [WriteFails None]))
    /\ effects tr = [].
Proof.
  apply (valid_manifest_loaded_unwritten (AM := PlainDocs)
           (Mini.stringify2 0 emptyShape) emptyShape emptyShape [WriteFails None]);
    reflexivity.
Defined.

Lemma restart_reloads_persisted_witness :
  exists w1 t1 tr,
    persistJson quiet = (w1, t1, Normal tt)
    /\ loadInitial (snapshot w1) []
       = (tr, Some (boot (AM := PlainDocs) emptyShape (snapshot w1) []))
    /\ effects tr = [].
Proof.
  apply (restart_reloads_persisted (AM := PlainDocs) quiet emptyShape []); reflexivity.
Defined.

Lemma query_string_ignored_witness :
  httpHandler None (mkRequest "GET" (Some "/client.html?v=2"))
  = httpHandler None (mkRequest "GET" (Some "/client.html")).
Proof.
  apply (query_string_ignored None "GET" "/client.html" "v=2").
  - discriminate.
  - reflexivity.
Defined.

Lemma ts_is_time_of_day_witness :
  ts_of "2024-01-01T12:00:00.000Z" = Some "12:00:00.000"
  /\ ts_of "2024-01-01" = None.
Proof.
  apply (ts_is_time_of_day "2024-01-01" "12:00:00.000"); reflexivity.
Defined.

Lemma peek_single_line_bounded_witness :
  peek "{" = "{".
Proof.
  destruct (peek_single_line_bounded "{") as (_ & _ & Hsame).
  apply Hsame; [simpl; lia | reflexivity].
Defined.

Lemma qText_without_first_page_witness :
  qText (AM := PlainDocs) emptyShape = JStr "(missing)".
Proof.
  destruct (qText_without_first_page (AM := PlainDocs) emptyShape) as [_ H].
  eapply H; [reflexivity|]. right. right. reflexivity.
Defined.

Lemma hello_catches_up_with_broadcast_witness :
  exists w' tr tr',
    onMessage bob fullFrame noon faulty = (w', tr, Normal tt)
    /\ onMessage bob helloFrame noon w' = (w', tr', Normal tt)
    /\ filter (is_send_of "full") tr'
       = [ESend 3 (JObj [("type", JStr "full");
                         ("payload",
                          JStr (Mini.stringify2 0
                                  (am_merge emptyShape (JObj [("field", JStr "x")]))))])
                true].
Proof.
  assert (Hp : JSON_parse (text_of fullFrame)
               = Some (JObj [("type", JStr "full");
                             ("payload", JStr (Mini.sq "{'field':'x'}"))]))
    by reflexivity.
  assert (Hq : JSON_parse (text_of helloFrame) = Some (JObj [("type", JStr "hello")]))
    by reflexivity.
  destruct (hello_catches_up_with_broadcast (RT := MiniJS) (AM := PlainDocs)
              bob bob fullFrame helloFrame noon noon faulty _ _
              (JObj [("field", JStr "x")]) Hp eq_refl eq_refl eq_refl Hq eq_refl)
    as (w' & tr & tr' & H1 & H2 & _ & H3).
  exists w', tr, tr'. split; [exact H1|]. split; [exact H2 | exact H3].
Defined.

Lemma full_frame_raises_at_merge_log_witness :
  exists w' tr,
    onMessage bob poisonFrame noon quiet = (w', tr, Throw)
    /\ doc w' = am_merge emptyShape poisoned
    /\ snapshot w' = snapshot quiet /\ disk w' = disk quiet
    /\ effects tr
       = [ESend 3 (JObj [("type", JStr "debug_echo");
                         ("bytes", JNum (Z.of_nat (String.length (text_of poisonFrame))))])
                true].
Proof.
  assert (Hp : JSON_parse (text_of poisonFrame)
               = Some (JObj [("type", JStr "full");
                             ("payload", JStr (Mini.sq
                                "{'pages':[{'questionRows':[{'elements':[{'questionText':{'toString':1}}]}]}]}"))]))
    by reflexivity.
  exact (full_frame_raises_at_merge_log (AM := PlainDocs) bob poisonFrame noon quiet
           _ poisoned Hp eq_refl eq_refl eq_refl).
Defined.

Lemma unformattable_manifest_replaced_witness :
  exists d0 w tr,
    am_from emptyShape = Some d0
    /\ loadInitial (Some poisonManifest) [] = (tr, Some w)
    /\ doc w = d0
    /\ effects tr = [EWrite (JSON_stringify2 (am_view d0)) true]
    /\ snapshot w = Some (JSON_stringify2 (am_view d0)).
Proof.
  exact (unformattable_manifest_replaced (AM := PlainDocs)
           poisonManifest poisoned poisoned [] eq_refl eq_refl eq_refl).
Defined.

End MoreRuns.
